(** * HtsServo: the serial-bus servo driver, embedded and verified

    A shallow embedding of [hts_servo/utility.py] (parameter codec, command
    catalogue, unit conversion) and of [hts_servo/__init__.py]
    ([ServoController]: connection handling, frame construction, response
    parsing and the device operations built on them).

    Python values are modelled as follows.
    - [int] is [Z]; a [bytes]/[bytearray] is a [list Z] of values in 0..255.
    - [float] is a binary64 primitive float, with the same rounding Python has.
    - an exception is a value of [exn], carrying the fixed part of its message;
      a computation returns a [result]: a value, a raised exception, or
      [Hang] when it never returns (the busy-wait of [read_response]).
    - the class attribute [ServoController.handle], the serial port behind it,
      the standard output, the warnings shown and the module-level binding of
      the name [id] make up the [World] that every method threads through. *)

From Stdlib Require Import ZArith String List Bool Lia Floats.
Import ListNotations.

Open Scope Z_scope.

(** ** Exceptions and results *)

Inductive exn : Type :=
| RuntimeError (msg : string)
| ValueError (msg : string)
| TypeError (msg : string)
| OverflowError (msg : string)
| IndexError (msg : string)
| UnboundLocalError (name : string)
| AttributeError (msg : string)
| SerialException.

Inductive result (A : Type) : Type :=
| Ok (a : A)
| Raise (e : exn)
| Hang.

Arguments Ok {A} a.
Arguments Raise {A} e.
Arguments Hang {A}.

Definition rbind {A B} (r : result A) (k : A -> result B) : result B :=
  match r with
  | Ok a => k a
  | Raise e => Raise e
  | Hang => Hang
  end.

(** ** Python sequence operations *)

(** [sum(l)] over a byte sequence. *)
Definition py_sum (l : list Z) : Z := fold_right Z.add 0 l.

(** Normalisation of a slice bound against a sequence of length [len]. *)
Definition clamp (len i : Z) : Z :=
  if i <? 0 then Z.max 0 (i + len) else Z.min i len.

(** [l[lo:hi]]; an omitted bound is [None]. *)
Definition py_slice {A} (l : list A) (lo hi : option Z) : list A :=
  let len := Z.of_nat (length l) in
  let a := match lo with None => 0 | Some i => clamp len i end in
  let b := match hi with None => len | Some j => clamp len j end in
  firstn (Z.to_nat (b - a)) (skipn (Z.to_nat a) l).

(** [l[i]] on a bytes object, negative indices counting from the end. *)
Definition py_index (l : list Z) (i : Z) : result Z :=
  let len := Z.of_nat (length l) in
  let j := if i <? 0 then i + len else i in
  if (j <? 0) || (len <=? j) then Raise (IndexError "index out of range")
  else match nth_error l (Z.to_nat j) with
       | Some b => Ok b
       | None => Raise (IndexError "index out of range")
       end.

Definition list_Z_eqb (a b : list Z) : bool :=
  if list_eq_dec Z.eq_dec a b then true else false.

(** ** The builtin [int.to_bytes] and [int.from_bytes] *)

(** The [len] low bytes of [n], least significant first. *)
Fixpoint le_bytes (len : nat) (n : Z) : list Z :=
  match len with
  | O => []
  | S k => (n mod 256) :: le_bytes k (n / 256)
  end.

(** The number a little-endian byte sequence stands for, unsigned. *)
Fixpoint le_value (l : list Z) : Z :=
  match l with
  | [] => 0
  | b :: t => b + 256 * le_value t
  end.

(** An argument passed positionally to a builtin. *)
Inductive pyarg : Type :=
| AInt (z : Z)
| AStr (s : string)
| ABool (b : bool).

(** The encoding proper, once the arguments are bound: the byte order is
    looked at first, then the length, then whether the value fits. *)
Definition to_bytes_impl (n length : Z) (byteorder : string) (signed : bool)
  : result (list Z) :=
  let little := String.eqb byteorder "little" in
  if negb little && negb (String.eqb byteorder "big")
  then Raise (ValueError "byteorder must be either 'little' or 'big'")
  else if length <? 0
  then Raise (ValueError "length argument must be non-negative")
  else
    let m := 256 ^ length in
    let body := le_bytes (Z.to_nat length) (n mod m) in
    let ordered := if little then body else rev body in
    if signed then
      if (- (m / 2) <=? n) && (n <=? (m - 1) / 2) then Ok ordered
      else Raise (OverflowError "int too big to convert")
    else if n <? 0
    then Raise (OverflowError "can't convert negative int to unsigned")
    else if m <=? n then Raise (OverflowError "int too big to convert")
    else Ok ordered.

(** The call [n.to_bytes(args..., signed=kw)].  The signature is
    [to_bytes(length, byteorder, *, signed=False)]: [signed] is keyword-only,
    so a call with a third positional argument is refused before anything is
    encoded. *)
Definition int_to_bytes (n : Z) (args : list pyarg) (kw_signed : option bool)
  : result (list Z) :=
  let signed := match kw_signed with Some b => b | None => false end in
  match args with
  | [AInt length; AStr byteorder] => to_bytes_impl n length byteorder signed
  | _ :: _ :: _ :: _ =>
      Raise (TypeError "to_bytes() takes at most 2 positional arguments")
  | _ => Raise (TypeError "to_bytes() arguments of the wrong type")
  end.

(** [int.from_bytes(l, "little", signed=signed)]. *)
Definition from_bytes_little (l : list Z) (signed : bool) : Z :=
  let v := le_value l in
  let m := 256 ^ Z.of_nat (length l) in
  if signed && (m / 2 <=? v) && negb (m =? 1) then v - m else v.

(** ** utility.py *)

Inductive Command : Type :=
| SERVO_MOVE_TIME_WRITE
| SERVO_MOVE_TIME_READ
| SERVO_MOVE_TIME_WAIT_WRITE
| SERVO_MOVE_TIME_WAIT_READ
| SERVO_MOVE_START
| SERVO_MOVE_STOP
| SERVO_ID_WRITE
| SERVO_ID_READ
| SERVO_ANGLE_OFFSET_ADJUST
| SERVO_ANGLE_OFFSET_WRITE
| SERVO_ANGLE_OFFSET_READ
| SERVO_ANGLE_LIMIT_WRITE
| SERVO_ANGLE_LIMIT_READ
| SERVO_VIN_LIMIT_WRITE
| SERVO_VIN_LIMIT_READ
| SERVO_TEMP_MAX_LIMIT_WRITE
| SERVO_TEMP_MAX_LIMIT_READ
| SERVO_TEMP_READ
| SERVO_VIN_READ
| SERVO_POS_READ
| SERVO_OR_MOTOR_MODE_WRITE
| SERVO_OR_MOTOR_MODE_READ
| SERVO_LOAD_OR_UNLOAD_WRITE
| SERVO_LOAD_OR_UNLOAD_READ
| SERVO_LED_CTRL_WRITE
| SERVO_LED_CTRL_READ
| SERVO_LED_ERROR_WRITE
| SERVO_LED_ERROR_READ.

(** The integer an [IntEnum] member is. *)
Definition Command_value (c : Command) : Z :=
  match c with
  | SERVO_MOVE_TIME_WRITE => 1
  | SERVO_MOVE_TIME_READ => 2
  | SERVO_MOVE_TIME_WAIT_WRITE => 7
  | SERVO_MOVE_TIME_WAIT_READ => 8
  | SERVO_MOVE_START => 11
  | SERVO_MOVE_STOP => 12
  | SERVO_ID_WRITE => 13
  | SERVO_ID_READ => 14
  | SERVO_ANGLE_OFFSET_ADJUST => 17
  | SERVO_ANGLE_OFFSET_WRITE => 18
  | SERVO_ANGLE_OFFSET_READ => 19
  | SERVO_ANGLE_LIMIT_WRITE => 20
  | SERVO_ANGLE_LIMIT_READ => 21
  | SERVO_VIN_LIMIT_WRITE => 22
  | SERVO_VIN_LIMIT_READ => 23
  | SERVO_TEMP_MAX_LIMIT_WRITE => 24
  | SERVO_TEMP_MAX_LIMIT_READ => 25
  | SERVO_TEMP_READ => 26
  | SERVO_VIN_READ => 27
  | SERVO_POS_READ => 28
  | SERVO_OR_MOTOR_MODE_WRITE => 29
  | SERVO_OR_MOTOR_MODE_READ => 30
  | SERVO_LOAD_OR_UNLOAD_WRITE => 31
  | SERVO_LOAD_OR_UNLOAD_READ => 32
  | SERVO_LED_CTRL_WRITE => 33
  | SERVO_LED_CTRL_READ => 34
  | SERVO_LED_ERROR_WRITE => 35
  | SERVO_LED_ERROR_READ => 36
  end.

(** [Command(v)]: the member with value [v], [ValueError] when there is none. *)
Definition Command_of_value (v : Z) : result Command :=
  match v with
  | 1 => Ok SERVO_MOVE_TIME_WRITE
  | 2 => Ok SERVO_MOVE_TIME_READ
  | 7 => Ok SERVO_MOVE_TIME_WAIT_WRITE
  | 8 => Ok SERVO_MOVE_TIME_WAIT_READ
  | 11 => Ok SERVO_MOVE_START
  | 12 => Ok SERVO_MOVE_STOP
  | 13 => Ok SERVO_ID_WRITE
  | 14 => Ok SERVO_ID_READ
  | 17 => Ok SERVO_ANGLE_OFFSET_ADJUST
  | 18 => Ok SERVO_ANGLE_OFFSET_WRITE
  | 19 => Ok SERVO_ANGLE_OFFSET_READ
  | 20 => Ok SERVO_ANGLE_LIMIT_WRITE
  | 21 => Ok SERVO_ANGLE_LIMIT_READ
  | 22 => Ok SERVO_VIN_LIMIT_WRITE
  | 23 => Ok SERVO_VIN_LIMIT_READ
  | 24 => Ok SERVO_TEMP_MAX_LIMIT_WRITE
  | 25 => Ok SERVO_TEMP_MAX_LIMIT_READ
  | 26 => Ok SERVO_TEMP_READ
  | 27 => Ok SERVO_VIN_READ
  | 28 => Ok SERVO_POS_READ
  | 29 => Ok SERVO_OR_MOTOR_MODE_WRITE
  | 30 => Ok SERVO_OR_MOTOR_MODE_READ
  | 31 => Ok SERVO_LOAD_OR_UNLOAD_WRITE
  | 32 => Ok SERVO_LOAD_OR_UNLOAD_READ
  | 33 => Ok SERVO_LED_CTRL_WRITE
  | 34 => Ok SERVO_LED_CTRL_READ
  | 35 => Ok SERVO_LED_ERROR_WRITE
  | 36 => Ok SERVO_LED_ERROR_READ
  | _ => Raise (ValueError "is not a valid Command")
  end.

(** [ServoObject] is an [int]; the broadcast identifier. *)
Definition ServoObject : Type := Z.
Definition SERVO_BRODCAST : ServoObject := 0xfe.

(** [param2bytes(param, len=2, is_signed=False)]: the body hands [is_signed]
    to [to_bytes] as a third positional argument. *)
Definition param2bytes (param : Z) (len : Z) (is_signed : bool)
  : result (list Z) :=
  int_to_bytes param [AInt len; AStr "little"; ABool is_signed] None.

(** [bytes2param(byte_arr, is_signed=False)]. *)
Definition bytes2param (byte_arr : list Z) (is_signed : bool) : Z :=
  from_bytes_little byte_arr is_signed.

(** [int(x)] on a float: truncation toward zero. *)
Definition float_to_int (x : float) : result Z :=
  match Prim2SF x with
  | S754_zero _ => Ok 0
  | S754_infinity _ =>
      Raise (OverflowError "cannot convert float infinity to integer")
  | S754_nan => Raise (ValueError "cannot convert float NaN to integer")
  | S754_finite s m e =>
      let mag := if 0 <=? e then Z.shiftl (Zpos m) e
                 else Z.shiftr (Zpos m) (- e) in
      Ok (if s then - mag else mag)
  end.

Definition degree2cmd (degree : float) : result Z :=
  if PrimFloat.ltb degree 0 || PrimFloat.ltb 240 degree
  then Raise (ValueError "Degree should be in range [0, 240]")
  else float_to_int (PrimFloat.div (PrimFloat.mul degree 1000) 240).

Definition degree2offset (degree : float) : result Z :=
  if PrimFloat.ltb degree (-30)%float || PrimFloat.ltb 30 degree
  then Raise (ValueError "Degree should be in range [-30, 30]")
  else float_to_int (PrimFloat.div (PrimFloat.mul degree 125) 30).

(** ** The serial port and the world *)

(** A [serial.Serial] object as the controller sees it: what it was opened
    with, the bytes written to it so far, and the bytes waiting to be read.
    [writable] says whether [write] succeeds or raises. *)
Record Serial : Type := mkSerial {
  port : string;
  baudrate : option Z;
  timeout : option float;
  writable : bool;
  written : list Z;
  in_buffer : list Z
}.

Definition set_written (s : Serial) (bs : list Z) : Serial :=
  mkSerial (port s) (baudrate s) (timeout s) (writable s) bs (in_buffer s).

Definition set_in_buffer (s : Serial) (bs : list Z) : Serial :=
  mkSerial (port s) (baudrate s) (timeout s) (writable s) (written s) bs.

(** [s.write(buf)]. *)
Definition Serial_write (s : Serial) (buf : list Z) : result Serial :=
  if writable s then Ok (set_written s (written s ++ buf))
  else Raise SerialException.

(** [s.in_waiting]. *)
Definition in_waiting (s : Serial) : Z := Z.of_nat (length (in_buffer s)).

(** [s.read(size)]: the next [size] bytes; with a timeout, fewer when fewer
    are waiting; without one, the call blocks until [size] bytes have come. *)
Definition Serial_read (s : Serial) (size : Z) : result (list Z * Serial) :=
  let n := Z.to_nat size in
  match timeout s with
  | None =>
      if (length (in_buffer s) <? n)%nat then Hang
      else Ok (firstn n (in_buffer s), set_in_buffer s (skipn n (in_buffer s)))
  | Some _ =>
      Ok (firstn n (in_buffer s), set_in_buffer s (skipn n (in_buffer s)))
  end.

(** What the methods of [ServoController] read and change.  [open_ports]
    counts the transports currently open; [global_id] is what the name [id]
    is bound to at module level ([None]: only the builtin function). *)
Record World : Type := mkWorld {
  handle : option Serial;
  open_ports : nat;
  stdout : list string;
  warnings_shown : list string;
  global_id : option Z
}.

Definition set_handle (w : World) (h : option Serial) : World :=
  mkWorld h (open_ports w) (stdout w) (warnings_shown w) (global_id w).

Definition set_open_ports (w : World) (n : nat) : World :=
  mkWorld (handle w) n (stdout w) (warnings_shown w) (global_id w).

(** A computation over the world. *)
Definition M (A : Type) : Type := World -> result A * World.

Definition ret {A} (a : A) : M A := fun w => (Ok a, w).

Definition bind {A B} (m : M A) (k : A -> M B) : M B :=
  fun w =>
    match m w with
    | (Ok a, w') => k a w'
    | (Raise e, w') => (Raise e, w')
    | (Hang, w') => (Hang, w')
    end.

Definition lift {A} (r : result A) : M A := fun w => (r, w).

Definition raise {A} (e : exn) : M A := fun w => (Raise e, w).

Declare Scope servo_scope.
Delimit Scope servo_scope with servo.
Notation "x <- m ;; k" := (bind m (fun x => k))
  (at level 61, m at next level, right associativity) : servo_scope.
Notation "m ;;; k" := (bind m (fun _ => k))
  (at level 61, right associativity) : servo_scope.
Open Scope servo_scope.

(** [print(msg)]. *)
Definition print (msg : string) : M unit :=
  fun w => (Ok tt, mkWorld (handle w) (open_ports w) (stdout w ++ [msg])
                           (warnings_shown w) (global_id w)).

(** [warnings.warn(msg, RuntimeWarning)] under the default filter: the
    warning is shown and execution goes on. *)
Definition warn (msg : string) : M unit :=
  fun w => (Ok tt, mkWorld (handle w) (open_ports w) (stdout w)
                           (warnings_shown w ++ [msg]) (global_id w)).

(** ** ServoController *)

Definition check_handle : M unit :=
  fun w =>
    match handle w with
    | None => (Raise (RuntimeError "Servo controller is not connected"), w)
    | Some _ => (Ok tt, w)
    end.

(** A constructor of the serial library that opens every device it is asked
    for, with nothing written and nothing waiting. *)
Definition Serial_open (device : string) (baud : option Z) (tmo : option float)
  : result Serial :=
  Ok (mkSerial device baud tmo true [] []).

Section Connection.

(** [serial.Serial(device, baudrate, timeout=timeout)], the constructor of
    the serial library: it returns an open port or raises. *)
Variable serial_Serial :
  string -> option Z -> option float -> result Serial.

Definition connect (device : string) (baud : option Z) (tmo : option float)
  : M unit :=
  fun w =>
    match handle w with
    | Some _ => print "Servo controller is already connected" w
    | None =>
        match serial_Serial device baud tmo with
        | Ok s =>
            print "Servo controller connected"
              (set_open_ports (set_handle w (Some s)) (S (open_ports w)))
        | Raise e => (Raise e, w)
        | Hang => (Hang, w)
        end
    end.

End Connection.

Definition disconnect : M unit :=
  check_handle ;;;
  (fun w =>
     (Ok tt, set_handle (set_open_ports w (pred (open_ports w))) None)) ;;;
  print "Servo controller disconnected".

(** The value of [buffer] when [send_command] reaches the write. *)
Definition send_command_buffer (servo_id : ServoObject) (command : Command)
  (params : list Z) : result (list Z) :=
  let buffer := [0x55; 0x55] in
  rbind (int_to_bytes servo_id [AInt 1; AStr "little"] None) (fun b =>
  let buffer := buffer ++ b in
  rbind (int_to_bytes (Z.of_nat (length params) + 3)
                      [AInt 1; AStr "little"] None) (fun b =>
  let buffer := buffer ++ b in
  rbind (int_to_bytes (Command_value command) [AInt 1; AStr "little"] None)
        (fun b =>
  let buffer := buffer ++ b in
  let buffer := buffer ++ params in
  rbind (int_to_bytes (Z.lnot (py_sum (py_slice buffer (Some 2) None)) mod 256)
                      [AInt 1; AStr "little"] None) (fun b =>
  Ok (buffer ++ b))))).

(** [cls.handle.write(buffer)] inside the [try]: a failure is reported on the
    standard output and raised again. *)
Definition handle_write (buffer : list Z) : M unit :=
  fun w =>
    match handle w with
    | None =>
        (print "Error" ;;;
         raise (AttributeError "'NoneType' object has no attribute 'write'")) w
    | Some s =>
        match Serial_write s buffer with
        | Ok s' => (Ok tt, set_handle w (Some s'))
        | Raise e => (print "Error" ;;; raise e) w
        | Hang => (Hang, w)
        end
    end.

Definition send_command (servo_id : ServoObject) (command : Command)
  (params : list Z) : M unit :=
  check_handle ;;;
  buffer <- lift (send_command_buffer servo_id command params) ;;
  handle_write buffer.

(** [cls.handle.read(size)]. *)
Definition handle_read (size : Z) : M (list Z) :=
  fun w =>
    match handle w with
    | None =>
        (Raise (AttributeError "'NoneType' object has no attribute 'read'"), w)
    | Some s =>
        match Serial_read s size with
        | Ok (bs, s') => (Ok bs, set_handle w (Some s'))
        | Raise e => (Raise e, w)
        | Hang => (Hang, w)
        end
    end.

(** [while cls.handle.in_waiting == 0: pass]: nothing in the loop changes
    what is waiting, so it returns at once or never. *)
Definition wait_for_response : M unit :=
  fun w =>
    match handle w with
    | None =>
        (Raise (AttributeError
                  "'NoneType' object has no attribute 'in_waiting'"), w)
    | Some s => if in_waiting s =? 0 then (Hang, w) else (Ok tt, w)
    end.

(** [hex(x)] on a bytes object: [hex] takes an integer and nothing else. *)
Definition hex_of_bytes (x : list Z) : result string :=
  Raise (TypeError "'bytes' object cannot be interpreted as an integer").

(** The message of each [RuntimeError] is formatted before the exception is
    built; that of the header test applies [hex] to the slice [buffer[:2]]. *)
Definition read_response (servo_id : ServoObject) (command : option Command)
  : M (Command * list Z) :=
  check_handle ;;;
  wait_for_response ;;;
  buffer <- handle_read 4 ;;
  (if negb (list_Z_eqb (py_slice buffer None (Some 2)) [0x55; 0x55])
   then shown <- lift (hex_of_bytes (py_slice buffer None (Some 2))) ;;
        raise (RuntimeError "Invalid response header")
   else ret tt) ;;;
  (if negb (servo_id =? SERVO_BRODCAST)
   then b2 <- lift (py_index buffer 2) ;;
        if negb (b2 =? servo_id)
        then raise (RuntimeError "Invalid response servo ID")
        else ret tt
   else ret tt) ;;;
  length <- lift (py_index buffer 3) ;;
  more <- handle_read (length - 1) ;;
  let buffer := buffer ++ more in
  (match command with
   | Some c =>
       b4 <- lift (py_index buffer 4) ;;
       if negb (b4 =? Command_value c)
       then raise (RuntimeError "Invalid response command")
       else ret tt
   | None => ret tt
   end) ;;;
  let expected_checksum :=
    Z.lnot (py_sum (py_slice buffer (Some 2) (Some (-1)))) mod 256 in
  last <- lift (py_index buffer (-1)) ;;
  (if negb (last =? expected_checksum)
   then raise (RuntimeError "Invalid response checksum")
   else ret tt) ;;;
  b4 <- lift (py_index buffer 4) ;;
  c <- lift (Command_of_value b4) ;;
  ret (c, py_slice buffer (Some 5) (Some (-1))).

(** [bytearray(l)] from a list of integers. *)
Definition py_bytearray (l : list Z) : result (list Z) :=
  if forallb (fun b => (0 <=? b) && (b <? 256)) l then Ok l
  else Raise (ValueError "byte must be in range(0, 256)").

(** The name [id] as [set_id] reads it: the function has no local of that
    name, so it is the module-level binding if there is one and the builtin
    function otherwise, which does not compare with an integer. *)
Definition read_id : M Z :=
  fun w =>
    match global_id w with
    | Some v => (Ok v, w)
    | None =>
        (Raise (TypeError
           "'<' not supported between instances of 'builtin_function_or_method' and 'int'"),
         w)
    end.

Section DeviceAPI.

(** The operations below reach the parameter encoder through this variable;
    the controller's own methods are their instances at [param2bytes]. *)
Variable encoder : Z -> Z -> bool -> result (list Z).

Definition set_move_time_with (position time : Z) (is_wait : bool)
  (servo_id : ServoObject) : M unit :=
  check_handle ;;;
  (if (position <? 0) || (position >? 1000)
   then raise (RuntimeError "Invalid position (0~1000)") else ret tt) ;;;
  (if (time <? 0) || (time >? 30000)
   then raise (RuntimeError "Invalid time (0~30000)") else ret tt) ;;;
  if is_wait then
    p <- lift (encoder position 2 false) ;;
    t <- lift (encoder time 2 false) ;;
    send_command servo_id SERVO_MOVE_TIME_WAIT_WRITE (p ++ t)
  else
    p <- lift (encoder position 2 false) ;;
    t <- lift (encoder time 2 false) ;;
    send_command servo_id SERVO_MOVE_TIME_WRITE (p ++ t).

Definition set_id_with (target_id : Z) (servo_id : ServoObject) : M unit :=
  check_handle ;;;
  id <- read_id ;;
  (if (id <? 0) || (id >? 253) then raise (RuntimeError "") else ret tt) ;;;
  (if servo_id =? SERVO_BRODCAST
   then warn "You are broadcasting writing id!" else ret tt) ;;;
  p <- lift (encoder target_id 1 false) ;;
  send_command servo_id SERVO_MOVE_STOP p.

Definition set_motor_mode_with (speed : option Z) (servo_id : ServoObject)
  : M unit :=
  check_handle ;;;
  match speed with
  | None =>
      send_command servo_id SERVO_OR_MOTOR_MODE_WRITE [0x00; 0x00; 0x00; 0x00]
  | Some speed =>
      (if (speed <? -1000) || (speed >? 1000)
       then raise (ValueError "Invalid speed (-1000~1000)") else ret tt) ;;;
      p <- lift (encoder speed 2 true) ;;
      send_command servo_id SERVO_TEMP_MAX_LIMIT_WRITE ([0x01; 0x00] ++ p)
  end.

End DeviceAPI.

Definition set_move_time := set_move_time_with param2bytes.
Definition set_id := set_id_with param2bytes.
Definition set_motor_mode := set_motor_mode_with param2bytes.

(** [status += k]: the local must hold a value already. *)
Definition aug_add (status : option Z) (k : Z) : result Z :=
  match status with
  | Some v => Ok (v + k)
  | None => Raise (UnboundLocalError "status")
  end.

(** The three [status += ...] lines of [set_led_error], from the binding
    [status] has when the first of them runs. *)
Definition led_status (status : option Z) (temp_warn vin_warn stick_warn : bool)
  : result Z :=
  rbind (aug_add status (if temp_warn then 1 else 0)) (fun s1 =>
  rbind (aug_add (Some s1) (if vin_warn then 2 else 0)) (fun s2 =>
  aug_add (Some s2) (if stick_warn then 4 else 0))).

(** [status] is a local of [set_led_error] (it is assigned there) and nothing
    binds it before the first [+=]. *)
Definition set_led_error (temp_warn vin_warn stick_warn : bool)
  (servo_id : ServoObject) : M unit :=
  check_handle ;;;
  status <- lift (led_status None temp_warn vin_warn stick_warn) ;;
  payload <- lift (py_bytearray [status]) ;;
  send_command servo_id SERVO_LED_ERROR_WRITE payload.

(** ** The other operations of ServoController *)

(** [bool(n)] on an integer. *)
Definition py_bool (n : Z) : bool := negb (n =? 0).

(** An element of a tuple handed to [int.from_bytes]: an integer or a bytes
    object. *)
Inductive pyitem : Type :=
| IInt (z : Z)
| IBytes (b : list Z).

(** [bytes(items)] on an iterable: each element must be an integer in
    0..255. *)
Fixpoint bytes_of_items (items : list pyitem) : result (list Z) :=
  match items with
  | [] => Ok []
  | IInt z :: rest =>
      if (0 <=? z) && (z <? 256)
      then rbind (bytes_of_items rest) (fun bs => Ok (z :: bs))
      else Raise (ValueError "bytes must be in range(0, 256)")
  | IBytes _ :: _ =>
      Raise (TypeError "'bytes' object cannot be interpreted as an integer")
  end.

(** [bytes2param] applied to a tuple: [int.from_bytes] first makes bytes of
    it. *)
Definition bytes2param_items (items : list pyitem) (is_signed : bool)
  : result Z :=
  rbind (bytes_of_items items) (fun bs => Ok (bytes2param bs is_signed)).

(** With [is_wait] the result of [read_response] is kept whole (no [[1]]), so
    [response] is the pair (command, payload) and its slices are tuples. *)
Definition get_move_time (servo_id : ServoObject) (is_wait : bool)
  : M (Z * Z) :=
  check_handle ;;;
  if is_wait then
    send_command servo_id SERVO_MOVE_TIME_WAIT_READ [] ;;;
    r <- read_response servo_id (Some SERVO_MOVE_TIME_WAIT_READ) ;;
    let response := [IInt (Command_value (fst r)); IBytes (snd r)] in
    a <- lift (bytes2param_items (py_slice response (Some 0) (Some 2)) false) ;;
    b <- lift (bytes2param_items (py_slice response (Some 2) (Some 4)) false) ;;
    ret (a, b)
  else
    send_command servo_id SERVO_MOVE_TIME_READ [] ;;;
    r <- read_response servo_id (Some SERVO_MOVE_TIME_READ) ;;
    let response := snd r in
    ret (bytes2param (py_slice response (Some 0) (Some 2)) false,
         bytes2param (py_slice response (Some 2) (Some 4)) false).

Definition start_move (servo_id : ServoObject) : M unit :=
  check_handle ;;;
  send_command servo_id SERVO_MOVE_START [].

Definition stop_move (servo_id : ServoObject) : M unit :=
  check_handle ;;;
  send_command servo_id SERVO_MOVE_STOP [].

Definition get_id (servo_id : ServoObject) : M ServoObject :=
  check_handle ;;;
  send_command servo_id SERVO_ID_READ [] ;;;
  r <- read_response servo_id (Some SERVO_ID_READ) ;;
  let response := snd r in
  lift (py_index response 0).

Definition set_angle_offset (offset : Z) (is_forever : bool)
  (servo_id : ServoObject) : M unit :=
  check_handle ;;;
  (if (offset <? -125) || (offset >? 125)
   then raise (ValueError "Invalid offset (-125~125)") else ret tt) ;;;
  if is_forever then
    p <- lift (param2bytes offset 1 true) ;;
    send_command servo_id SERVO_ANGLE_OFFSET_WRITE p
  else
    p <- lift (param2bytes offset 1 true) ;;
    send_command servo_id SERVO_ANGLE_OFFSET_ADJUST p.

Definition get_angle_offset (servo_id : ServoObject) : M Z :=
  check_handle ;;;
  send_command servo_id SERVO_ID_READ [] ;;;
  r <- read_response servo_id (Some SERVO_ID_READ) ;;
  let response := snd r in
  ret (bytes2param response true).

Definition set_angle_limit (min max : Z) (servo_id : ServoObject) : M unit :=
  check_handle ;;;
  (if (min <? 0) || (min >? 1000)
   then raise (RuntimeError "Invalid min angle (0~1000)") else ret tt) ;;;
  (if (max <? 0) || (max >? 1000)
   then raise (RuntimeError "Invalid max angle (0~1000)") else ret tt) ;;;
  a <- lift (param2bytes min 2 false) ;;
  b <- lift (param2bytes max 2 false) ;;
  send_command servo_id SERVO_ANGLE_LIMIT_WRITE (a ++ b).

Definition get_angle_limit (servo_id : ServoObject) : M (Z * Z) :=
  check_handle ;;;
  send_command servo_id SERVO_ANGLE_LIMIT_READ [] ;;;
  r <- read_response servo_id (Some SERVO_ANGLE_LIMIT_READ) ;;
  let response := snd r in
  ret (bytes2param (py_slice response (Some 0) (Some 2)) false,
       bytes2param (py_slice response (Some 2) (Some 4)) false).

Definition set_vin_limit (min max : Z) (servo_id : ServoObject) : M unit :=
  check_handle ;;;
  (if (min <? 4500) || (min >? 12000)
   then raise (RuntimeError "Invalid min vin (4500~12000)") else ret tt) ;;;
  (if (max <? 4500) || (max >? 12000)
   then raise (RuntimeError "Invalid max vin (4500~12000)") else ret tt) ;;;
  a <- lift (param2bytes min 2 false) ;;
  b <- lift (param2bytes max 2 false) ;;
  send_command servo_id SERVO_VIN_LIMIT_WRITE (a ++ b).

Definition get_vin_limit (servo_id : ServoObject) : M (Z * Z) :=
  check_handle ;;;
  send_command servo_id SERVO_VIN_LIMIT_READ [] ;;;
  r <- read_response servo_id (Some SERVO_VIN_LIMIT_READ) ;;
  let response := snd r in
  ret (bytes2param (py_slice response (Some 0) (Some 2)) false,
       bytes2param (py_slice response (Some 2) (Some 4)) false).

Definition set_max_temp_limit (max : Z) (servo_id : ServoObject) : M unit :=
  check_handle ;;;
  (if (max <? 50) || (max >? 100)
   then raise (RuntimeError "Invalid max temp (50~100)") else ret tt) ;;;
  p <- lift (param2bytes max 2 false) ;;
  send_command servo_id SERVO_TEMP_MAX_LIMIT_WRITE p.

Definition get_max_temp_limit (servo_id : ServoObject) : M Z :=
  check_handle ;;;
  send_command servo_id SERVO_TEMP_MAX_LIMIT_READ [] ;;;
  r <- read_response servo_id (Some SERVO_TEMP_MAX_LIMIT_READ) ;;
  let response := snd r in
  ret (bytes2param response false).

Definition get_temp (servo_id : ServoObject) : M Z :=
  check_handle ;;;
  send_command servo_id SERVO_TEMP_READ [] ;;;
  r <- read_response servo_id (Some SERVO_TEMP_READ) ;;
  let response := snd r in
  ret (bytes2param response false).

Definition get_vin (servo_id : ServoObject) : M Z :=
  check_handle ;;;
  send_command servo_id SERVO_VIN_READ [] ;;;
  r <- read_response servo_id (Some SERVO_VIN_READ) ;;
  let response := snd r in
  ret (bytes2param response false).

Definition get_pos (servo_id : ServoObject) : M Z :=
  check_handle ;;;
  send_command servo_id SERVO_POS_READ [] ;;;
  r <- read_response servo_id (Some SERVO_POS_READ) ;;
  let response := snd r in
  ret (bytes2param response false).

Definition get_motor_mode (servo_id : ServoObject) : M (bool * Z) :=
  check_handle ;;;
  send_command servo_id SERVO_OR_MOTOR_MODE_READ [] ;;;
  r <- read_response servo_id (Some SERVO_OR_MOTOR_MODE_READ) ;;
  let response := snd r in
  b0 <- lift (py_index response 0) ;;
  ret (py_bool b0, bytes2param (py_slice response (Some 2) (Some 3)) false).

Definition set_is_load (is_load : bool) (servo_id : ServoObject) : M unit :=
  check_handle ;;;
  payload <- lift (py_bytearray [if is_load then 0x01 else 0x00]) ;;
  send_command servo_id SERVO_LOAD_OR_UNLOAD_WRITE payload.

Definition get_is_load (servo_id : ServoObject) : M bool :=
  check_handle ;;;
  send_command servo_id SERVO_LOAD_OR_UNLOAD_READ [] ;;;
  r <- read_response servo_id (Some SERVO_LOAD_OR_UNLOAD_READ) ;;
  let response := snd r in
  b0 <- lift (py_index response 0) ;;
  ret (py_bool b0).

Definition set_led (is_on : bool) (servo_id : ServoObject) : M unit :=
  check_handle ;;;
  payload <- lift (py_bytearray [if is_on then 0x01 else 0x00]) ;;
  send_command servo_id SERVO_LED_CTRL_WRITE payload.

Definition get_led (servo_id : ServoObject) : M bool :=
  check_handle ;;;
  send_command servo_id SERVO_LED_CTRL_READ [] ;;;
  r <- read_response servo_id (Some SERVO_LED_CTRL_READ) ;;
  let response := snd r in
  b0 <- lift (py_index response 0) ;;
  ret (py_bool b0).

Definition get_led_error (servo_id : ServoObject) : M (bool * bool * bool) :=
  check_handle ;;;
  send_command servo_id SERVO_LED_ERROR_READ [] ;;;
  r <- read_response servo_id (Some SERVO_LED_ERROR_READ) ;;
  let response := snd r in
  status <- lift (py_index response 0) ;;
  ret (py_bool (Z.land status 0x01), py_bool (Z.land status 0x02),
       py_bool (Z.land status 0x04)).

(** Whether every element is a byte. *)
Definition all_bytes (l : list Z) : Prop := Forall (fun b => 0 <= b < 256) l.

(** ** Calls in sequence *)

(** A call of [connect] or of [disconnect]. *)
Inductive call : Type :=
| Connect (device : string) (baud : option Z) (tmo : option float)
| Disconnect.

Section Calls.

Variable serial_Serial :
  string -> option Z -> option float -> result Serial.

Definition run_call (c : call) : M unit :=
  match c with
  | Connect device baud tmo => connect serial_Serial device baud tmo
  | Disconnect => disconnect
  end.

(** The world after a sequence of calls, each outcome (returned or raised)
    being left to the caller, as at an interactive prompt. *)
Fixpoint run_calls (cs : list call) (w : World) : World :=
  match cs with
  | [] => w
  | c :: cs' => run_calls cs' (snd (run_call c w))
  end.

End Calls.

(** The world when the module has just been imported. *)
Definition World_init : World := mkWorld None 0 [] [] None.

(** ** The vocabulary of the specification *)

(** The specification's error classes, read off the exceptions the source
    raises for them. *)
Definition NotConnectedError (e : exn) : Prop :=
  e = RuntimeError "Servo controller is not connected".

Definition RangeError (e : exn) : Prop :=
  match e with
  | RuntimeError msg =>
      In msg ["Invalid position (0~1000)"; "Invalid time (0~30000)"]%string
  | ValueError msg =>
      In msg ["Invalid speed (-1000~1000)";
              "Degree should be in range [0, 240]";
              "Degree should be in range [-30, 30]"]%string
  | _ => False
  end.

Definition ProtocolError (e : exn) : Prop :=
  match e with
  | RuntimeError msg =>
      In msg ["Invalid response header"; "Invalid response servo ID";
              "Invalid response command"; "Invalid response checksum"]%string
  | _ => False
  end.

(** The frame of section 6 of the specification: header, destination, length,
    opcode, payload, checksum. *)
Definition checksum (body : list Z) : Z := Z.land (Z.lnot (py_sum body)) 0xFF.

Definition frame (destination : Z) (command : Command) (payload : list Z)
  : list Z :=
  let body :=
    destination :: (Z.of_nat (length payload) + 3) :: Command_value command
                :: payload in
  [0x55; 0x55] ++ body ++ [checksum body].

(** The parameter encoder of section 4.1: little-endian, fixed width, with
    the signedness reaching [to_bytes] by keyword. *)
Definition encode (value width : Z) (signed : bool) : result (list Z) :=
  int_to_bytes value [AInt width; AStr "little"] (Some signed).

(** A value that fits the width and signedness. *)
Definition representable (value width : Z) (signed : bool) : Prop :=
  0 <= width /\
  if signed then - (256 ^ width / 2) <= value <= (256 ^ width - 1) / 2
  else 0 <= value < 256 ^ width.

(** [round(x)] on a finite float: to the nearest integer, ties to even. *)
Definition float_round (x : float) : result Z :=
  match Prim2SF x with
  | S754_zero _ => Ok 0
  | S754_infinity _ =>
      Raise (OverflowError "cannot convert float infinity to integer")
  | S754_nan => Raise (ValueError "cannot convert float NaN to integer")
  | S754_finite s m e =>
      let mag :=
        if 0 <=? e then Z.shiftl (Zpos m) e
        else
          let q := Z.shiftr (Zpos m) (- e) in
          let r := Zpos m - Z.shiftl q (- e) in
          let half := Z.shiftl 1 (- e - 1) in
          if r <? half then q
          else if half <? r then q + 1
          else if Z.even q then q else q + 1 in
      Ok (if s then - mag else mag)
  end.

(** [degreeToCommandUnits] as the specification words it. *)
Definition degreeToCommandUnits_spec (degree : float) : result Z :=
  float_round (PrimFloat.div (PrimFloat.mul degree 1000) 240).

(** The integer [d] as a float; exact for the small values used here. *)
Definition float_of_Z (d : Z) : float :=
  if d <? 0 then PrimFloat.opp (PrimFloat.of_uint63 (Uint63.of_Z (- d)))
  else PrimFloat.of_uint63 (Uint63.of_Z d).

(** The mask [setLedError] is specified to send. *)
Definition led_mask (temp_warn vin_warn stick_warn : bool) : Z :=
  Z.lor (if temp_warn then 1 else 0)
        (Z.lor (if vin_warn then 2 else 0) (if stick_warn then 4 else 0)).

(** The connection invariant: a transport is open exactly when the class
    holds a handle, so never more than one. *)
Definition single_transport (w : World) : Prop :=
  open_ports w = match handle w with Some _ => 1%nat | None => 0%nat end.

Definition result_Z_eqb (a b : result Z) : bool :=
  match a, b with
  | Ok x, Ok y => x =? y
  | _, _ => false
  end.

(** Whether [degree2cmd] floors [d * 1000 / 240] at each integer degree
    [d] below [n]. *)
Definition degree2cmd_floors_below (n : nat) : bool :=
  forallb (fun k => let d := Z.of_nat k in
             result_Z_eqb (degree2cmd (float_of_Z d)) (Ok (d * 1000 / 240)))
          (seq 0 n).

(** Whether [degree2offset] truncates [d * 125 / 30] toward zero at each
    integer degree [d] from -30 up to [n - 31]. *)
Definition degree2offset_truncates_below (n : nat) : bool :=
  forallb (fun k => let d := Z.of_nat k - 30 in
             result_Z_eqb (degree2offset (float_of_Z d))
                          (Ok (Z.quot (d * 125) 30)))
          (seq 0 n).

(** A port and a connected world to run the methods in. *)
Definition usb_port : Serial :=
  mkSerial "/dev/ttyUSB0" (Some 115200) (Some 1%float) true [] [].

Definition connected_world : World := mkWorld (Some usb_port) 1 [] [] None.

(** The connected world with a reply frame from servo 1 waiting, followed by
    [rest]. *)
Definition replied (cmd : Command) (payload rest : list Z) : World :=
  mkWorld (Some (set_in_buffer usb_port (frame 1 cmd payload ++ rest)))
          1 [] [] None.

(** The connected world after the request for [cmd] went to [servo_id],
    with [left] still waiting. *)
Definition asked (servo_id : Z) (cmd : Command) (left : list Z) : World :=
  mkWorld (Some (set_in_buffer
                   (set_written usb_port
                      (written usb_port ++ frame servo_id cmd []))
                   left))
          1 [] [] None.

(** * Properties *)

(** ** Sequences *)

Lemma py_slice_from_2 {A} (x y : A) (l : list A) :
  py_slice (x :: y :: l) (Some 2) None = l.
Proof.
  unfold py_slice, clamp.
  change (2 <? 0) with false. cbv iota.
  assert (H : Z.min 2 (Z.of_nat (length (x :: y :: l))) = 2).
  { apply Z.min_l. simpl length. lia. }
  rewrite H. change (Z.to_nat 2) with 2%nat. simpl skipn.
  apply firstn_all2. simpl length. lia.
Qed.

Lemma py_slice_drop_last {A} (l : list A) (x : A) (k : nat) :
  (k <= length l)%nat ->
  py_slice (l ++ [x]) (Some (Z.of_nat k)) (Some (-1)) = skipn k l.
Proof.
  intros Hk. unfold py_slice, clamp.
  rewrite length_app. simpl length.
  change (-1 <? 0) with true. cbv iota.
  destruct (Z.of_nat k <? 0) eqn:E; [apply Z.ltb_lt in E; lia|].
  rewrite Z.min_l by lia. rewrite Z.max_r by lia.
  rewrite Nat2Z.id.
  rewrite skipn_app.
  replace (k - length l)%nat with 0%nat by lia. simpl skipn.
  rewrite firstn_app.
  rewrite length_skipn.
  replace (Z.to_nat (-1 + Z.of_nat (length l + 1) - Z.of_nat k))
    with (length l - k)%nat by lia.
  replace (length l - k - (length l - k))%nat with 0%nat by lia.
  simpl firstn. rewrite app_nil_r.
  apply firstn_all2. rewrite length_skipn. lia.
Qed.

Lemma py_index_last (l : list Z) (x : Z) : py_index (l ++ [x]) (-1) = Ok x.
Proof.
  unfold py_index. rewrite length_app. simpl length.
  change (-1 <? 0) with true. cbv iota.
  destruct (-1 + Z.of_nat (length l + 1) <? 0) eqn:E1;
    [apply Z.ltb_lt in E1; lia|].
  destruct (Z.of_nat (length l + 1) <=? -1 + Z.of_nat (length l + 1)) eqn:E2;
    [apply Z.leb_le in E2; lia|].
  simpl orb. cbv iota.
  replace (Z.to_nat (-1 + Z.of_nat (length l + 1))) with (length l) by lia.
  rewrite nth_error_app2 by lia.
  rewrite Nat.sub_diag. reflexivity.
Qed.

Lemma py_index_nth (l : list Z) (k : nat) (x : Z) :
  nth_error l k = Some x -> py_index l (Z.of_nat k) = Ok x.
Proof.
  intros H. unfold py_index.
  assert (Hlt : (k < length l)%nat) by (apply nth_error_Some; congruence).
  destruct (Z.of_nat k <? 0) eqn:E0; [apply Z.ltb_lt in E0; lia|].
  rewrite E0.
  destruct (Z.of_nat (length l) <=? Z.of_nat k) eqn:E1;
    [apply Z.leb_le in E1; lia|].
  simpl orb. cbv iota. rewrite Nat2Z.id, H. reflexivity.
Qed.

Lemma list_Z_eqb_refl (l : list Z) : list_Z_eqb l l = true.
Proof.
  unfold list_Z_eqb. destruct (list_eq_dec Z.eq_dec l l); congruence.
Qed.

Lemma list_Z_eqb_neq (a b : list Z) : a <> b -> list_Z_eqb a b = false.
Proof.
  intros H. unfold list_Z_eqb. destruct (list_eq_dec Z.eq_dec a b); congruence.
Qed.

(** ** The byte codec *)

Lemma to_bytes_byte (n : Z) :
  0 <= n < 256 -> int_to_bytes n [AInt 1; AStr "little"] None = Ok [n].
Proof.
  intros H. unfold int_to_bytes, to_bytes_impl.
  change (1 <? 0) with false. change (256 ^ 1) with 256.
  change (String.eqb "little" "little") with true. cbv iota zeta.
  destruct (n <? 0) eqn:E0; [apply Z.ltb_lt in E0; lia|].
  destruct (256 <=? n) eqn:E1; [apply Z.leb_le in E1; lia|].
  change (Z.to_nat 1) with 1%nat. simpl le_bytes.
  rewrite Z.mod_mod by lia. rewrite Z.mod_small by lia. reflexivity.
Qed.

Lemma to_bytes_too_big (n : Z) :
  256 <= n ->
  int_to_bytes n [AInt 1; AStr "little"] None
  = Raise (OverflowError "int too big to convert").
Proof.
  intros H. unfold int_to_bytes, to_bytes_impl.
  change (1 <? 0) with false. change (256 ^ 1) with 256. cbv iota zeta.
  destruct (n <? 0) eqn:E0; [apply Z.ltb_lt in E0; lia|].
  destruct (256 <=? n) eqn:E1; [reflexivity|apply Z.leb_gt in E1; lia].
Qed.

Lemma Command_value_byte (c : Command) : 0 <= Command_value c < 256.
Proof. destruct c; simpl; lia. Qed.

Lemma Command_of_value_value (c : Command) :
  Command_of_value (Command_value c) = Ok c.
Proof. destruct c; reflexivity. Qed.

Lemma lnot_mod_256 (s : Z) : Z.lnot s mod 256 = Z.land (Z.lnot s) 0xFF.
Proof.
  change 0xFF with (Z.ones 8). rewrite Z.land_ones by lia. reflexivity.
Qed.

Lemma lnot_mod_256_range (s : Z) : 0 <= Z.lnot s mod 256 < 256.
Proof. apply Z.mod_pos_bound. lia. Qed.

Lemma checksum_complement (body : list Z) :
  checksum body = 255 - py_sum body mod 256.
Proof.
  unfold checksum. rewrite <- lnot_mod_256.
  unfold Z.lnot. rewrite Z.pred_succ || idtac.
  pose proof (Z.mod_pos_bound (py_sum body) 256 ltac:(lia)) as Hb.
  pose proof (Z.div_mod (py_sum body) 256 ltac:(lia)) as Hd.
  symmetry. apply Z.mod_unique with (q := - (py_sum body / 256) - 1); lia.
Qed.

(** The buffer [send_command] builds is the specified frame. *)
Lemma send_command_buffer_frame (servo_id : Z) (command : Command)
  (params : list Z) :
  0 <= servo_id < 256 -> (length params <= 252)%nat ->
  send_command_buffer servo_id command params
  = Ok (frame servo_id command params).
Proof.
  intros Hid Hlen. unfold send_command_buffer.
  rewrite (to_bytes_byte servo_id) by lia. cbn [rbind].
  rewrite (to_bytes_byte (Z.of_nat (length params) + 3)) by lia. cbn [rbind].
  rewrite (to_bytes_byte (Command_value command))
    by apply Command_value_byte.
  cbn [rbind].
  cbn [app].
  rewrite py_slice_from_2.
  rewrite to_bytes_byte by apply lnot_mod_256_range.
  cbn [rbind]. unfold frame, checksum. rewrite lnot_mod_256.
  cbn [app]. reflexivity.
Qed.

Lemma send_command_buffer_too_long (servo_id : Z) (command : Command)
  (params : list Z) :
  0 <= servo_id < 256 -> (252 < length params)%nat ->
  send_command_buffer servo_id command params
  = Raise (OverflowError "int too big to convert").
Proof.
  intros Hid Hlen. unfold send_command_buffer.
  rewrite (to_bytes_byte servo_id) by lia. cbn [rbind].
  rewrite to_bytes_too_big by lia. reflexivity.
Qed.

(** ** Running a method step by step *)

Lemma bind_ok {A B} (m : M A) (k : A -> M B) (w w' : World) (a : A) :
  m w = (Ok a, w') -> bind m k w = k a w'.
Proof. intros H. unfold bind. rewrite H. reflexivity. Qed.

Lemma bind_raise {A B} (m : M A) (k : A -> M B) (w w' : World) (e : exn) :
  m w = (Raise e, w') -> bind m k w = (Raise e, w').
Proof. intros H. unfold bind. rewrite H. reflexivity. Qed.

Lemma check_handle_connected (s : Serial) (n : nat) (out warns : list string)
  (gid : option Z) :
  check_handle (mkWorld (Some s) n out warns gid)
  = (Ok tt, mkWorld (Some s) n out warns gid).
Proof. reflexivity. Qed.

Lemma check_handle_unconnected (w : World) :
  handle w = None ->
  check_handle w
  = (Raise (RuntimeError "Servo controller is not connected"), w).
Proof. intros H. unfold check_handle. rewrite H. reflexivity. Qed.

Lemma wait_for_response_ready (r : Serial) (b : Z) (bs : list Z) (n : nat)
  (out warns : list string) (gid : option Z) :
  wait_for_response (mkWorld (Some (set_in_buffer r (b :: bs))) n out warns gid)
  = (Ok tt, mkWorld (Some (set_in_buffer r (b :: bs))) n out warns gid).
Proof. reflexivity. Qed.

Ltac run_with H := erewrite bind_ok by (apply H).

Lemma handle_read_app (a rest : list Z) (r : Serial) (n : nat)
  (out warns : list string) (gid : option Z) :
  handle_read (Z.of_nat (length a))
    (mkWorld (Some (set_in_buffer r (a ++ rest))) n out warns gid)
  = (Ok a, mkWorld (Some (set_in_buffer r rest)) n out warns gid).
Proof.
  unfold handle_read, Serial_read. cbn [handle timeout set_in_buffer in_buffer].
  rewrite Nat2Z.id.
  assert (Hf : firstn (length a) (a ++ rest) = a).
  { rewrite firstn_app, Nat.sub_diag, firstn_all. simpl. apply app_nil_r. }
  assert (Hs : skipn (length a) (a ++ rest) = rest).
  { rewrite skipn_app, Nat.sub_diag, skipn_all. reflexivity. }
  assert (Hl : (length (a ++ rest) <? length a)%nat = false).
  { apply Nat.ltb_ge. rewrite length_app. lia. }
  rewrite Hf, Hs, Hl.
  destruct (timeout r); reflexivity.
Qed.

Lemma handle_read_prefix (a rest buf : list Z) (k : Z) (r : Serial) (n : nat)
  (out warns : list string) (gid : option Z) :
  buf = a ++ rest -> k = Z.of_nat (length a) ->
  handle_read k (mkWorld (Some (set_in_buffer r buf)) n out warns gid)
  = (Ok a, mkWorld (Some (set_in_buffer r rest)) n out warns gid).
Proof. intros -> ->. apply handle_read_app. Qed.

Lemma servo_id_check_passes (buffer : list Z) (servo_id : Z) (w : World) :
  servo_id = SERVO_BRODCAST \/ py_index buffer 2 = Ok servo_id ->
  (if negb (servo_id =? SERVO_BRODCAST)
   then b2 <- lift (py_index buffer 2) ;;
        if negb (b2 =? servo_id)
        then raise (RuntimeError "Invalid response servo ID")
        else ret tt
   else ret tt) w = (Ok tt, w).
Proof.
  intros [-> | H]; [reflexivity|].
  destruct (servo_id =? SERVO_BRODCAST); cbn [negb]; [reflexivity|].
  unfold bind, lift. rewrite H, Z.eqb_refl. reflexivity.
Qed.

(** ** Frames: building and parsing *)

(** What [send_command] does on a connected controller, for every payload:
    it writes the frame, or refuses a payload too long for the length byte. *)
Lemma send_command_connected (servo_id : Z) (command : Command)
  (params : list Z) (s : Serial) (n : nat) (out warns : list string)
  (gid : option Z) :
  0 <= servo_id < 256 -> writable s = true ->
  send_command servo_id command params (mkWorld (Some s) n out warns gid)
  = if (length params <=? 252)%nat
    then (Ok tt,
          mkWorld (Some (set_written s
                           (written s ++ frame servo_id command params)))
                  n out warns gid)
    else (Raise (OverflowError "int too big to convert"),
          mkWorld (Some s) n out warns gid).
Proof.
  intros Hid Hw. unfold send_command.
  run_with check_handle_connected.
  destruct (length params <=? 252)%nat eqn:E.
  - apply Nat.leb_le in E.
    unfold bind, lift. rewrite send_command_buffer_frame by assumption.
    unfold handle_write, Serial_write. cbn [handle]. rewrite Hw. reflexivity.
  - apply Nat.leb_gt in E.
    unfold bind, lift. rewrite send_command_buffer_too_long by assumption.
    reflexivity.
Qed.

(** [read_response] on a port whose next bytes are laid out as a frame, with
    any byte [c] in the checksum position: the checksum test decides. *)
Lemma read_response_framed (servo_id : Z) (command : Command)
  (params rest : list Z) (c : Z) (r : Serial) (n : nat)
  (out warns : list string) (gid : option Z) :
  let body :=
    servo_id :: (Z.of_nat (length params) + 3) :: Command_value command
             :: params in
  read_response servo_id (Some command)
    (mkWorld (Some (set_in_buffer r ([0x55; 0x55] ++ body ++ [c] ++ rest)))
             n out warns gid)
  = (if c =? checksum body then Ok (command, params)
     else Raise (RuntimeError "Invalid response checksum"),
     mkWorld (Some (set_in_buffer r rest)) n out warns gid).
Proof.
  intros body. unfold body.
  set (L := Z.of_nat (length params) + 3).
  set (op := Command_value command).
  assert (Hfr : [85; 85] ++ (servo_id :: L :: op :: params) ++ [c] ++ rest
                = [85; 85; servo_id; L] ++ ((op :: params ++ [c]) ++ rest)).
  { cbn [app]. rewrite <- !app_assoc. reflexivity. }
  rewrite Hfr. unfold read_response.
  run_with check_handle_connected.
  cbn [app].
  run_with wait_for_response_ready.
  erewrite bind_ok
    by (apply (handle_read_prefix [85; 85; servo_id; L]
                 ((op :: params ++ [c]) ++ rest)); reflexivity).
  change (py_slice [85; 85; servo_id; L] None (Some 2)) with [85; 85].
  rewrite list_Z_eqb_refl. cbn [negb].
  erewrite bind_ok by reflexivity.
  erewrite bind_ok by (apply servo_id_check_passes; right; reflexivity).
  erewrite bind_ok by reflexivity.
  erewrite bind_ok
    by (apply (handle_read_prefix (op :: params ++ [c]) rest);
        [reflexivity | cbn [length]; rewrite length_app; cbn [length]; lia]).
  assert (Hbuf : [85; 85; servo_id; L] ++ op :: params ++ [c]
                 = (85 :: 85 :: servo_id :: L :: op :: params) ++ [c])
    by reflexivity.
  rewrite Hbuf.
  rewrite (py_index_nth _ 4 op) by reflexivity.
  rewrite py_index_last.
  rewrite (py_slice_drop_last _ c 2) by (cbn [length]; lia).
  rewrite (py_slice_drop_last _ c 5) by (cbn [length]; lia).
  cbn [skipn].
  rewrite lnot_mod_256. fold (checksum (servo_id :: L :: op :: params)).
  unfold bind, lift, ret, raise. rewrite Z.eqb_refl. cbn [negb].
  destruct (c =? checksum (servo_id :: L :: op :: params)); cbn [negb].
  - unfold op. rewrite Command_of_value_value. reflexivity.
  - reflexivity.
Qed.

(** [read_response] on a port whose next bytes are a frame: it returns the
    frame's command and payload and leaves what follows the frame unread. *)
Lemma read_response_frame (servo_id : Z) (command : Command)
  (params rest : list Z) (r : Serial) (n : nat) (out warns : list string)
  (gid : option Z) :
  read_response servo_id (Some command)
    (mkWorld (Some (set_in_buffer r (frame servo_id command params ++ rest)))
             n out warns gid)
  = (Ok (command, params),
     mkWorld (Some (set_in_buffer r rest)) n out warns gid).
Proof.
  pose proof (read_response_framed servo_id command params rest
                (checksum (servo_id :: (Z.of_nat (length params) + 3)
                             :: Command_value command :: params))
                r n out warns gid) as H.
  cbv zeta in H. rewrite Z.eqb_refl in H.
  unfold frame. rewrite <- H. rewrite <- !app_assoc. reflexivity.
Qed.

(** A frame whose checksum byte has been tampered with is refused with the
    checksum [RuntimeError], a protocol error. *)
Lemma read_response_bad_checksum (servo_id : Z) (command : Command)
  (params rest : list Z) (c : Z) (r : Serial) (n : nat)
  (out warns : list string) (gid : option Z) :
  let body :=
    servo_id :: (Z.of_nat (length params) + 3) :: Command_value command
             :: params in
  c <> checksum body ->
  read_response servo_id (Some command)
    (mkWorld (Some (set_in_buffer r ([0x55; 0x55] ++ body ++ [c] ++ rest)))
             n out warns gid)
  = (Raise (RuntimeError "Invalid response checksum"),
     mkWorld (Some (set_in_buffer r rest)) n out warns gid)
  /\ ProtocolError (RuntimeError "Invalid response checksum").
Proof.
  intros body Hc. split.
  - unfold body in *. rewrite read_response_framed. cbv zeta.
    apply Z.eqb_neq in Hc. rewrite Hc. reflexivity.
  - simpl. tauto.
Qed.

(** C3 (the header half, on the code as it is).  When the first two bytes
    read are not 0x55 0x55, formatting the message of the [RuntimeError]
    about to be raised calls [hex] on a bytes object, so what [read_response]
    raises is a [TypeError], which is no protocol error. *)
Theorem read_response_bad_header (servo_id : Z) (command : option Command)
  (b0 b1 b2 b3 : Z) (rest : list Z) (r : Serial) (n : nat)
  (out warns : list string) (gid : option Z) :
  [b0; b1] <> [0x55; 0x55] ->
  read_response servo_id command
    (mkWorld (Some (set_in_buffer r (b0 :: b1 :: b2 :: b3 :: rest)))
             n out warns gid)
  = (Raise (TypeError "'bytes' object cannot be interpreted as an integer"),
     mkWorld (Some (set_in_buffer r rest)) n out warns gid)
  /\ ~ ProtocolError
         (TypeError "'bytes' object cannot be interpreted as an integer").
Proof.
  intros Hne. split; [|simpl; tauto].
  unfold read_response.
  run_with check_handle_connected.
  run_with wait_for_response_ready.
  erewrite bind_ok
    by (apply (handle_read_prefix [b0; b1; b2; b3] rest); reflexivity).
  change (py_slice [b0; b1; b2; b3] None (Some 2)) with [b0; b1].
  rewrite list_Z_eqb_neq by assumption. cbn [negb].
  erewrite bind_raise by reflexivity. reflexivity.
Qed.

(** The buffer starting 0x55 0x56. *)
Lemma read_response_bad_header_0x56 :
  [0x55; 0x56] <> [0x55; 0x55] /\
  fst (read_response 1 (Some SERVO_POS_READ)
         (mkWorld
            (Some (set_in_buffer usb_port
                     [0x55; 0x56; 1; 5; 28; 0xF4; 0x01; 0xE8]))
            1 [] [] None))
  = Raise (TypeError "'bytes' object cannot be interpreted as an integer").
Proof.
  split; [discriminate|].
  exact (f_equal fst
           (proj1 (read_response_bad_header 1 (Some SERVO_POS_READ)
                     0x55 0x56 1 5 [28; 0xF4; 0x01; 0xE8] usb_port
                     1 [] [] None ltac:(discriminate)))).
Defined.

(** C1. Round trip: the bytes [send_command] writes for a destination, a
    command and a payload of at most 252 bytes, put before a port's reader,
    make [read_response] (expecting that destination and that command)
    return exactly that command and that payload. *)
Theorem send_then_read_roundtrip (servo_id : Z) (command : Command)
  (params rest : list Z) (s r : Serial) (n n' : nat)
  (out warns out' warns' : list string) (gid gid' : option Z) :
  0 <= servo_id <= 255 -> (length params <= 252)%nat -> writable s = true ->
  exists sent : list Z,
    send_command servo_id command params (mkWorld (Some s) n out warns gid)
    = (Ok tt,
       mkWorld (Some (set_written s (written s ++ sent))) n out warns gid)
    /\ read_response servo_id (Some command)
         (mkWorld (Some (set_in_buffer r (sent ++ rest))) n' out' warns' gid')
       = (Ok (command, params),
          mkWorld (Some (set_in_buffer r rest)) n' out' warns' gid').
Proof.
  intros Hid Hlen Hw. exists (frame servo_id command params). split.
  - rewrite send_command_connected by (lia || assumption).
    apply Nat.leb_le in Hlen. rewrite Hlen. reflexivity.
  - apply read_response_frame.
Qed.

(** C2. The frame [send_command] emits is 0x55, 0x55, the destination,
    [len(payload) + 3], the opcode, the payload and one checksum byte, the
    bitwise complement, kept to 8 bits, of the sum of the bytes from the
    destination to the end of the payload (that is, 255 minus that sum mod
    256).  A payload the length byte cannot count (over 252 bytes) is
    refused with nothing written. *)
Theorem send_command_frame_layout (servo_id : Z) (command : Command)
  (params : list Z) (s : Serial) (n : nat) (out warns : list string)
  (gid : option Z) :
  0 <= servo_id <= 255 -> writable s = true ->
  let total :=
    servo_id + (Z.of_nat (length params) + 3) + Command_value command
    + py_sum params in
  let emitted :=
    [0x55; 0x55; servo_id; Z.of_nat (length params) + 3; Command_value command]
    ++ params ++ [Z.land (Z.lnot total) 0xFF] in
  Z.land (Z.lnot total) 0xFF = 255 - total mod 256 /\
  send_command servo_id command params (mkWorld (Some s) n out warns gid)
  = if (length params <=? 252)%nat
    then (Ok tt,
          mkWorld (Some (set_written s (written s ++ emitted))) n out warns gid)
    else (Raise (OverflowError "int too big to convert"),
          mkWorld (Some s) n out warns gid).
Proof.
  intros Hid Hw total emitted.
  assert (Hsum : py_sum (servo_id :: (Z.of_nat (length params) + 3)
                           :: Command_value command :: params) = total).
  { unfold total. cbn [py_sum fold_right]. fold (py_sum params). lia. }
  split.
  - rewrite <- Hsum. apply checksum_complement.
  - rewrite send_command_connected by (lia || assumption).
    unfold frame, checksum. rewrite Hsum. reflexivity.
Qed.

Lemma send_then_read_roundtrip_witness :
  exists sent : list Z,
    send_command 1 SERVO_MOVE_TIME_WRITE [0xF4; 0x01; 0xE8; 0x03]
      connected_world
    = (Ok tt,
       mkWorld (Some (set_written usb_port (written usb_port ++ sent)))
               1 [] [] None)
    /\ read_response 1 (Some SERVO_MOVE_TIME_WRITE)
         (mkWorld (Some (set_in_buffer usb_port (sent ++ [0x55])))
                  1 [] [] None)
       = (Ok (SERVO_MOVE_TIME_WRITE, [0xF4; 0x01; 0xE8; 0x03]),
          mkWorld (Some (set_in_buffer usb_port [0x55])) 1 [] [] None).
Proof.
  apply (send_then_read_roundtrip 1 SERVO_MOVE_TIME_WRITE
           [0xF4; 0x01; 0xE8; 0x03] [0x55] usb_port usb_port 1 1
           [] [] [] [] None None);
    [lia | simpl; lia | reflexivity].
Defined.

Lemma send_command_frame_layout_witness :
  Z.land (Z.lnot (254 + 4 + 13 + 7)) 0xFF = 255 - (254 + 4 + 13 + 7) mod 256 /\
  send_command SERVO_BRODCAST SERVO_ID_WRITE [7] connected_world
  = (Ok tt,
     mkWorld (Some (set_written usb_port [0x55; 0x55; 254; 4; 13; 7; 233]))
             1 [] [] None).
Proof.
  apply (send_command_frame_layout SERVO_BRODCAST SERVO_ID_WRITE [7] usb_port
           1 [] [] None); [unfold SERVO_BRODCAST; lia | reflexivity].
Defined.

(** ** Range checks *)

(** C4. A position outside 0..1000 or a time outside 0..30000 makes
    [set_move_time] raise, and the world it leaves is the world it found: not
    a byte has gone to the transport.  On a connected controller what it
    raises is the range error. *)
Theorem set_move_time_out_of_range (position time : Z) (is_wait : bool)
  (servo_id : ServoObject) (w : World) :
  position < 0 \/ 1000 < position \/ time < 0 \/ 30000 < time ->
  exists e : exn,
    set_move_time position time is_wait servo_id w = (Raise e, w)
    /\ (handle w <> None -> RangeError e)
    /\ (handle w = None -> NotConnectedError e).
Proof.
  intros Hbad. unfold set_move_time, set_move_time_with.
  destruct (handle w) as [s|] eqn:Hh.
  - assert (Hc : check_handle w = (Ok tt, w))
      by (unfold check_handle; rewrite Hh; reflexivity).
    erewrite bind_ok by exact Hc.
    destruct ((position <? 0) || (position >? 1000)) eqn:Ep.
    + eexists. split; [reflexivity|]. split; [|discriminate].
      intros _. simpl. tauto.
    + erewrite bind_ok by reflexivity.
      assert (Et : (time <? 0) || (time >? 30000) = true).
      { apply orb_false_iff in Ep. destruct Ep as [E1 E2].
        apply Z.ltb_ge in E1. rewrite Z.gtb_ltb in E2. apply Z.ltb_ge in E2.
        apply orb_true_iff. rewrite Z.gtb_ltb, !Z.ltb_lt. lia. }
      rewrite Et.
      eexists. split; [reflexivity|]. split; [|discriminate].
      intros _. simpl. tauto.
  - eexists. split.
    + erewrite bind_raise by (apply check_handle_unconnected; exact Hh).
      reflexivity.
    + split; [congruence | intros _; reflexivity].
Qed.

Lemma set_move_time_out_of_range_witness :
  exists e : exn,
    set_move_time 1001 1000 false SERVO_BRODCAST connected_world
    = (Raise e, connected_world)
    /\ (handle connected_world <> None -> RangeError e)
    /\ (handle connected_world = None -> NotConnectedError e).
Proof.
  apply (set_move_time_out_of_range 1001 1000 false SERVO_BRODCAST
           connected_world).
  right. left. lia.
Defined.

(** ** The parameter codec *)

(** C9 (on the code as it is).  [param2bytes] passes the signedness to
    [to_bytes] positionally, where only a keyword is accepted: every call
    raises a [TypeError] and no bytes are produced to decode, for the value
    -1000 at width 2, signed, as for any other. *)
Theorem param2bytes_raises (param len : Z) (is_signed : bool) :
  param2bytes param len is_signed
  = Raise (TypeError "to_bytes() takes at most 2 positional arguments").
Proof. reflexivity. Qed.

Lemma le_value_le_bytes (k : nat) (n : Z) :
  le_value (le_bytes k n) = n mod 256 ^ Z.of_nat k.
Proof.
  revert n. induction k as [|k IH]; intros n.
  - simpl. symmetry. apply Z.mod_1_r.
  - cbn [le_bytes le_value]. rewrite IH.
    rewrite Nat2Z.inj_succ, Z.pow_succ_r by lia.
    rewrite Z.rem_mul_r by lia. lia.
Qed.

Lemma length_le_bytes (k : nat) (n : Z) : length (le_bytes k n) = k.
Proof.
  revert n. induction k as [|k IH]; intros n; simpl; [reflexivity|].
  now rewrite IH.
Qed.

Lemma pow_256_cases (width : Z) :
  0 <= width ->
  256 ^ width = 1 \/ (exists h : Z, 0 < h /\ 256 ^ width = 2 * h).
Proof.
  intros Hw. destruct (Z.eq_dec width 0) as [-> | Hne].
  - left. reflexivity.
  - right. exists (128 * 256 ^ (width - 1)). split.
    + assert (0 < 256 ^ (width - 1)) by (apply Z.pow_pos_nonneg; lia). lia.
    + replace width with (Z.succ (width - 1)) at 1 by lia.
      rewrite Z.pow_succ_r by lia. lia.
Qed.

(** With the signedness given by keyword, the builtin encoder and
    [bytes2param] are inverse on every representable value. *)
Lemma encode_bytes2param (value width : Z) (signed : bool) :
  representable value width signed ->
  exists bs : list Z,
    encode value width signed = Ok bs
    /\ Z.of_nat (length bs) = width
    /\ bytes2param bs signed = value.
Proof.
  intros [Hw Hr].
  exists (le_bytes (Z.to_nat width) (value mod 256 ^ width)).
  assert (Hm : 0 < 256 ^ width) by (apply Z.pow_pos_nonneg; lia).
  assert (Hlen : Z.of_nat (length (le_bytes (Z.to_nat width)
                                     (value mod 256 ^ width))) = width)
    by (rewrite length_le_bytes; lia).
  split; [|split; [exact Hlen|]].
  - unfold encode, int_to_bytes, to_bytes_impl.
    destruct (width <? 0) eqn:E0; [apply Z.ltb_lt in E0; lia|].
    change (String.eqb "little" "little") with true. cbv iota zeta.
    destruct signed.
    + destruct (- (256 ^ width / 2) <=? value) eqn:E1;
        [|apply Z.leb_gt in E1; lia].
      destruct (value <=? (256 ^ width - 1) / 2) eqn:E2;
        [|apply Z.leb_gt in E2; lia].
      reflexivity.
    + destruct (value <? 0) eqn:E1; [apply Z.ltb_lt in E1; lia|].
      destruct (256 ^ width <=? value) eqn:E2; [apply Z.leb_le in E2; lia|].
      reflexivity.
  - unfold bytes2param, from_bytes_little. rewrite Hlen.
    rewrite le_value_le_bytes, Z2Nat.id by lia.
    rewrite Z.mod_mod by lia.
    set (m := 256 ^ width) in *.
    destruct signed; cbn [andb].
    + destruct (pow_256_cases width Hw) as [H1 | [h [Hh H2]]].
      * fold m in H1. rewrite H1 in *. change (1 / 2) with 0 in *.
        change ((1 - 1) / 2) with 0 in Hr.
        assert (value = 0) by lia. subst value. reflexivity.
      * fold m in H2.
        assert (Hq : m / 2 = h)
          by (symmetry; apply Z.div_unique with (r := 0); lia).
        assert (Hq' : (m - 1) / 2 = h - 1).
        { symmetry. apply Z.div_unique with (r := 1); lia. }
        rewrite Hq in *. rewrite Hq' in Hr.
        destruct (Z_lt_le_dec value 0) as [Hneg | Hpos].
        -- assert (Hv : value mod m = value + m).
           { symmetry. apply Z.mod_unique with (q := -1); lia. }
           rewrite Hv.
           destruct (h <=? value + m) eqn:E1; [|apply Z.leb_gt in E1; lia].
           destruct (m =? 1) eqn:E2; [apply Z.eqb_eq in E2; lia|].
           cbn [andb negb]. lia.
        -- rewrite Z.mod_small by lia.
           destruct (h <=? value) eqn:E1; [apply Z.leb_le in E1; lia|].
           reflexivity.
    + apply Z.mod_small. lia.
Qed.

Lemma encode_bytes2param_minus_1000 :
  representable (-1000) 2 true /\
  exists bs : list Z,
    encode (-1000) 2 true = Ok bs
    /\ Z.of_nat (length bs) = 2
    /\ bytes2param bs true = -1000.
Proof.
  assert (H : representable (-1000) 2 true).
  { unfold representable. change (256 ^ 2) with 65536.
    change (65536 / 2) with 32768. change ((65536 - 1) / 2) with 32767. lia. }
  split; [exact H | exact (encode_bytes2param (-1000) 2 true H)].
Defined.

(** ** Device operations *)

Lemma frame_opcode (destination : Z) (command : Command) (payload : list Z) :
  nth_error (frame destination command payload) 4
  = Some (Command_value command).
Proof. reflexivity. Qed.

(** C6 (on the code as it is).  With a speed present, [set_motor_mode] on a
    connected controller never transmits: out of range it raises the range
    error; in range it reaches [param2bytes], which raises a [TypeError].
    The world is left as it was found. *)
Theorem set_motor_mode_speed_present (speed : Z) (servo_id : ServoObject)
  (s : Serial) (n : nat) (out warns : list string) (gid : option Z) :
  set_motor_mode (Some speed) servo_id (mkWorld (Some s) n out warns gid)
  = (Raise (if (speed <? -1000) || (speed >? 1000)
            then ValueError "Invalid speed (-1000~1000)"
            else TypeError "to_bytes() takes at most 2 positional arguments"),
     mkWorld (Some s) n out warns gid).
Proof.
  unfold set_motor_mode, set_motor_mode_with.
  run_with check_handle_connected.
  destruct ((speed <? -1000) || (speed >? 1000)); reflexivity.
Qed.

(** Were the encoder to return the bytes, the frame [set_motor_mode] sends
    for a speed would carry the opcode of [SERVO_TEMP_MAX_LIMIT_WRITE], 24,
    and not 29. *)
Lemma set_motor_mode_with_encode (speed : Z) (servo_id : ServoObject)
  (s : Serial) (n : nat) (out warns : list string) (gid : option Z) :
  -1000 <= speed <= 1000 -> 0 <= servo_id <= 255 -> writable s = true ->
  exists bs : list Z,
    Z.of_nat (length bs) = 2 /\ bytes2param bs true = speed /\
    set_motor_mode_with encode (Some speed) servo_id
      (mkWorld (Some s) n out warns gid)
    = (Ok tt,
       mkWorld (Some (set_written s
                        (written s
                         ++ frame servo_id SERVO_TEMP_MAX_LIMIT_WRITE
                              ([0x01; 0x00] ++ bs))))
               n out warns gid)
    /\ nth_error (frame servo_id SERVO_TEMP_MAX_LIMIT_WRITE
                    ([0x01; 0x00] ++ bs)) 4 = Some 24.
Proof.
  intros Hs Hid Hw.
  assert (Hrep : representable speed 2 true).
  { unfold representable. change (256 ^ 2) with 65536.
    change (65536 / 2) with 32768. change ((65536 - 1) / 2) with 32767. lia. }
  destruct (encode_bytes2param speed 2 true Hrep) as [bs [He [Hl Hb]]].
  exists bs. split; [exact Hl|]. split; [exact Hb|]. split; [|reflexivity].
  unfold set_motor_mode_with.
  run_with check_handle_connected.
  destruct (speed <? -1000) eqn:E1; [apply Z.ltb_lt in E1; lia|].
  destruct (speed >? 1000) eqn:E2;
    [rewrite Z.gtb_ltb in E2; apply Z.ltb_lt in E2; lia|].
  cbn [orb]. erewrite bind_ok by reflexivity.
  unfold bind at 1. unfold lift. rewrite He.
  rewrite send_command_connected by (lia || assumption).
  assert (Hlen : (length ([1; 0]%Z ++ bs) <=? 252)%nat = true).
  { apply Nat.leb_le. cbn [app length]. lia. }
  rewrite Hlen. reflexivity.
Qed.

Lemma led_status_from_zero (temp_warn vin_warn stick_warn : bool) :
  led_status (Some 0) temp_warn vin_warn stick_warn
  = Ok (led_mask temp_warn vin_warn stick_warn)
  /\ Z.testbit (led_mask temp_warn vin_warn stick_warn) 0 = temp_warn
  /\ Z.testbit (led_mask temp_warn vin_warn stick_warn) 1 = vin_warn
  /\ Z.testbit (led_mask temp_warn vin_warn stick_warn) 2 = stick_warn.
Proof. destruct temp_warn, vin_warn, stick_warn; repeat split. Qed.

(** C7 (on the code as it is).  [set_led_error] first executes
    [status += ...] on a local that has no value yet: on a connected
    controller it raises [UnboundLocalError] whatever the three flags, and
    transmits nothing. *)
Theorem set_led_error_unbound (temp_warn vin_warn stick_warn : bool)
  (servo_id : ServoObject) (s : Serial) (n : nat) (out warns : list string)
  (gid : option Z) :
  set_led_error temp_warn vin_warn stick_warn servo_id
    (mkWorld (Some s) n out warns gid)
  = (Raise (UnboundLocalError "status"), mkWorld (Some s) n out warns gid).
Proof. reflexivity. Qed.

(** C8 (on the code as it is).  The range test of [set_id] reads the name
    [id], not the parameter [target_id]: where only the builtin [id] is in
    scope the comparison raises a [TypeError], before the warning and before
    any write. *)
Theorem set_id_compares_builtin (target_id : Z) (servo_id : ServoObject)
  (s : Serial) (n : nat) (out warns : list string) :
  set_id target_id servo_id (mkWorld (Some s) n out warns None)
  = (Raise (TypeError
       "'<' not supported between instances of 'builtin_function_or_method' and 'int'"),
     mkWorld (Some s) n out warns None).
Proof. reflexivity. Qed.

(** Where a module-level [id] in 0..253 exists, the broadcast warning is
    shown and then [param2bytes] raises: still nothing is written. *)
Lemma set_id_global_id (target_id g : Z) (s : Serial) (n : nat)
  (out warns : list string) :
  0 <= g <= 253 ->
  set_id target_id SERVO_BRODCAST (mkWorld (Some s) n out warns (Some g))
  = (Raise (TypeError "to_bytes() takes at most 2 positional arguments"),
     mkWorld (Some s) n out (warns ++ ["You are broadcasting writing id!"%string])
             (Some g)).
Proof.
  intros Hg. unfold set_id, set_id_with.
  run_with check_handle_connected.
  erewrite bind_ok by reflexivity.
  destruct (g <? 0) eqn:E1; [apply Z.ltb_lt in E1; lia|].
  destruct (g >? 253) eqn:E2;
    [rewrite Z.gtb_ltb in E2; apply Z.ltb_lt in E2; lia|].
  reflexivity.
Qed.

(** Were both of these repaired, the frame [set_id] sends would still carry
    the opcode of [SERVO_MOVE_STOP], 12, and not that of [SERVO_ID_WRITE]. *)
Lemma set_id_with_encode (target_id g : Z) (s : Serial) (n : nat)
  (out warns : list string) :
  0 <= g <= 253 -> 0 <= target_id <= 253 -> writable s = true ->
  set_id_with encode target_id SERVO_BRODCAST
    (mkWorld (Some s) n out warns (Some g))
  = (Ok tt,
     mkWorld (Some (set_written s
                      (written s
                       ++ frame SERVO_BRODCAST SERVO_MOVE_STOP [target_id])))
             n out (warns ++ ["You are broadcasting writing id!"%string])
             (Some g))
  /\ Command_value SERVO_MOVE_STOP <> Command_value SERVO_ID_WRITE.
Proof.
  intros Hg Ht Hw. split; [|discriminate].
  unfold set_id_with.
  run_with check_handle_connected.
  erewrite bind_ok by reflexivity.
  destruct (g <? 0) eqn:E1; [apply Z.ltb_lt in E1; lia|].
  destruct (g >? 253) eqn:E2;
    [rewrite Z.gtb_ltb in E2; apply Z.ltb_lt in E2; lia|].
  cbn [orb]. erewrite bind_ok by reflexivity.
  change (SERVO_BRODCAST =? SERVO_BRODCAST) with true. cbv iota.
  erewrite bind_ok by reflexivity.
  assert (He : encode target_id 1 false = Ok [target_id]).
  { unfold encode. unfold int_to_bytes, to_bytes_impl.
    change (1 <? 0) with false. change (256 ^ 1) with 256.
    change (String.eqb "little" "little") with true. cbv iota zeta.
    destruct (target_id <? 0) eqn:E3; [apply Z.ltb_lt in E3; lia|].
    destruct (256 <=? target_id) eqn:E4; [apply Z.leb_le in E4; lia|].
    change (Z.to_nat 1) with 1%nat. cbn [le_bytes].
    rewrite Z.mod_mod by lia. rewrite Z.mod_small by lia. reflexivity. }
  unfold bind at 1. unfold lift. rewrite He.
  cbn [handle open_ports stdout warnings_shown global_id].
  rewrite send_command_connected
    by (unfold SERVO_BRODCAST; lia || assumption).
  reflexivity.
Qed.

(** ** Unit conversion *)

Lemma SFcompare_antisym (a b : spec_float) :
  SFcompare b a = option_map CompOpp (SFcompare a b).
Proof.
  destruct a as [sa|sa| |sa ma ea], b as [sb|sb| |sb mb eb]; simpl;
    try reflexivity;
    try (destruct sa; reflexivity); try (destruct sb; reflexivity);
    try (destruct sa, sb; reflexivity).
  change (Pos.compare_cont Eq mb ma)
    with (Pos.compare_cont (CompOpp Eq) mb ma).
  rewrite <- (Pos.compare_cont_antisym ma mb Eq).
  rewrite (Z.compare_antisym ea eb).
  destruct sa, sb, (ea ?= eb), (Pos.compare_cont Eq ma mb); reflexivity.
Qed.

Lemma leb_true_ltb_false (x y : float) :
  PrimFloat.leb x y = true -> PrimFloat.ltb y x = false.
Proof.
  rewrite leb_spec, ltb_spec. unfold SFleb, SFltb.
  rewrite (SFcompare_antisym (Prim2SF x) (Prim2SF y)).
  destruct (SFcompare (Prim2SF x) (Prim2SF y)) as [[| |]|]; simpl;
    congruence.
Qed.

Lemma degree2cmd_floors_to_240 : degree2cmd_floors_below 241 = true.
Proof. vm_compute. reflexivity. Qed.

Lemma degree2cmd_integer (d : Z) :
  0 <= d <= 240 -> degree2cmd (float_of_Z d) = Ok (d * 1000 / 240).
Proof.
  intros Hd.
  pose proof degree2cmd_floors_to_240 as H.
  unfold degree2cmd_floors_below in H.
  rewrite forallb_forall in H.
  specialize (H (Z.to_nat d)).
  rewrite Z2Nat.id in H by lia.
  assert (Hin : In (Z.to_nat d) (seq 0 241)) by (apply in_seq; lia).
  specialize (H Hin). cbv zeta in H.
  destruct (degree2cmd (float_of_Z d)) as [z| |]; simpl in H; try discriminate.
  apply Z.eqb_eq in H. now subst.
Qed.

(** C5, as the code has it.  For a degree in [0, 240], [degree2cmd] is
    [int(degree * 1000 / 240)]: the quotient truncated, not rounded; at an
    integer degree [d] that is the floor of [d * 1000 / 240].  It maps 0 to
    0 and 240 to 1000, and a degree below 0 or above 240 raises the range
    error. *)
Theorem degree2cmd_truncates :
  (forall degree : float,
      PrimFloat.leb 0 degree = true -> PrimFloat.leb degree 240 = true ->
      degree2cmd degree
      = float_to_int (PrimFloat.div (PrimFloat.mul degree 1000) 240))
  /\ (forall d : Z,
         0 <= d <= 240 -> degree2cmd (float_of_Z d) = Ok (d * 1000 / 240))
  /\ degree2cmd 0 = Ok 0
  /\ degree2cmd 240 = Ok 1000
  /\ (forall degree : float,
         PrimFloat.ltb degree 0 = true \/ PrimFloat.ltb 240 degree = true ->
         exists e : exn, degree2cmd degree = Raise e /\ RangeError e).
Proof.
  split; [|split; [|split; [|split]]].
  - intros degree H0 H240. unfold degree2cmd.
    rewrite (leb_true_ltb_false _ _ H0), (leb_true_ltb_false _ _ H240).
    reflexivity.
  - exact degree2cmd_integer.
  - reflexivity.
  - reflexivity.
  - intros degree H. unfold degree2cmd.
    assert (E : PrimFloat.ltb degree 0 || PrimFloat.ltb 240 degree = true)
      by (apply orb_true_iff; exact H).
    rewrite E. eexists. split; [reflexivity|]. simpl. tauto.
Qed.

Lemma degree2cmd_truncates_witness :
  degree2cmd 90 = Ok 375 /\ degree2cmd 7 = Ok 29
  /\ exists e : exn, degree2cmd 240.5 = Raise e /\ RangeError e.
Proof.
  split; [|split].
  - exact (proj1 degree2cmd_truncates 90%float eq_refl eq_refl).
  - exact (proj1 (proj2 degree2cmd_truncates) 7 ltac:(lia)).
  - exact (proj2 (proj2 (proj2 (proj2 degree2cmd_truncates))) 240.5%float
             (or_intror eq_refl)).
Defined.

(** At 4 degrees the quotient is 16.67: the code returns 16 where rounding
    gives 17. *)
Lemma degree2cmd_4_is_not_rounded :
  PrimFloat.leb 0 4 = true /\ PrimFloat.leb 4 240 = true
  /\ degree2cmd 4 = Ok 16
  /\ degreeToCommandUnits_spec 4 = Ok 17
  /\ degree2cmd 4 <> degreeToCommandUnits_spec 4.
Proof. repeat split. discriminate. Qed.

(** ** The connection *)

Section ConnectionInvariant.

Variable serial_Serial :
  string -> option Z -> option float -> result Serial.

Lemma run_call_single_transport (c : call) (w : World) :
  single_transport w ->
  single_transport (snd (run_call serial_Serial c w)).
Proof.
  unfold single_transport. intros H.
  destruct w as [h n out warns gid]. cbn [handle open_ports] in H.
  destruct c as [device baud tmo|]; destruct h as [s|]; subst n;
    try reflexivity.
  cbn. destruct (serial_Serial device baud tmo); reflexivity.
Qed.

Lemma run_calls_single_transport (cs : list call) (w : World) :
  single_transport w -> single_transport (run_calls serial_Serial cs w).
Proof.
  revert w. induction cs as [|c cs IH]; intros w H; cbn [run_calls].
  - exact H.
  - apply IH. apply run_call_single_transport. exact H.
Qed.

End ConnectionInvariant.

Lemma single_transport_at_most_one (w : World) :
  single_transport w -> (open_ports w <= 1)%nat.
Proof. unfold single_transport. destruct (handle w); lia. Qed.

(** C10.  Whatever the serial library's constructor does, [connect] on a
    controller that is connected returns without raising, keeps the handle it
    holds, opens nothing and only prints; and along any sequence of [connect]
    and [disconnect] calls begun with at most one transport open, at most one
    transport is open. *)
Theorem connect_keeps_single_transport
  (serial_Serial : string -> option Z -> option float -> result Serial)
  (cs : list call) (w : World) :
  single_transport w ->
  let w' := run_calls serial_Serial cs w in
  single_transport w'
  /\ (open_ports w' <= 1)%nat
  /\ forall (s : Serial) (device : string) (baud : option Z)
            (tmo : option float),
       handle w' = Some s ->
       connect serial_Serial device baud tmo w'
       = (Ok tt,
          mkWorld (Some s) (open_ports w')
                  (stdout w' ++ ["Servo controller is already connected"%string])
                  (warnings_shown w') (global_id w')).
Proof.
  intros H w'.
  assert (H' : single_transport w') by (apply run_calls_single_transport, H).
  split; [exact H'|]. split; [apply single_transport_at_most_one, H'|].
  intros s device baud tmo Hs. unfold connect, print. rewrite Hs. reflexivity.
Qed.

Lemma connect_keeps_single_transport_witness :
  single_transport World_init /\
  let w' :=
    run_calls Serial_open
      [Connect "/dev/ttyUSB0" (Some 115200) (Some 1%float);
       Connect "/dev/ttyUSB1" (Some 9600) None;
       Disconnect; Disconnect;
       Connect "/dev/ttyUSB1" (Some 9600) None] World_init in
  single_transport w'
  /\ (open_ports w' <= 1)%nat
  /\ forall (s : Serial) (device : string) (baud : option Z)
            (tmo : option float),
       handle w' = Some s ->
       connect Serial_open device baud tmo w'
       = (Ok tt,
          mkWorld (Some s) (open_ports w')
                  (stdout w' ++ ["Servo controller is already connected"%string])
                  (warnings_shown w') (global_id w')).
Proof.
  split; [reflexivity|].
  apply (connect_keeps_single_transport Serial_open
           [Connect "/dev/ttyUSB0" (Some 115200) (Some 1%float);
            Connect "/dev/ttyUSB1" (Some 9600) None;
            Disconnect; Disconnect;
            Connect "/dev/ttyUSB1" (Some 9600) None] World_init).
  reflexivity.
Defined.

(** * Further properties of the code *)

Lemma read_response_decides (servo_id : Z) (command : option Command)
  (d op c : Z) (payload rest : list Z) (r : Serial) (n : nat)
  (out warns : list string) (gid : option Z) :
  let body := d :: (Z.of_nat (length payload) + 3) :: op :: payload in
  let world_with := fun buf =>
    mkWorld (Some (set_in_buffer r buf)) n out warns gid in
  read_response servo_id command
    (world_with ([0x55; 0x55] ++ body ++ [c] ++ rest))
  = if negb (servo_id =? SERVO_BRODCAST) && negb (d =? servo_id)
    then (Raise (RuntimeError "Invalid response servo ID"),
          world_with (op :: payload ++ [c] ++ rest))
    else if match command with
            | Some cmd => negb (op =? Command_value cmd)
            | None => false
            end
    then (Raise (RuntimeError "Invalid response command"), world_with rest)
    else if negb (c =? checksum body)
    then (Raise (RuntimeError "Invalid response checksum"), world_with rest)
    else (rbind (Command_of_value op) (fun cmd => Ok (cmd, payload)),
          world_with rest).
Proof.
  intros body world_with. unfold body, world_with. clear body world_with.
  set (L := Z.of_nat (length payload) + 3).
  assert (Hfr : [85; 85] ++ (d :: L :: op :: payload) ++ [c] ++ rest
                = [85; 85; d; L] ++ ((op :: payload ++ [c]) ++ rest)).
  { cbn [app]. rewrite <- !app_assoc. reflexivity. }
  rewrite Hfr. unfold read_response.
  run_with check_handle_connected.
  cbn [app].
  run_with wait_for_response_ready.
  erewrite bind_ok
    by (apply (handle_read_prefix [85; 85; d; L]
                 ((op :: payload ++ [c]) ++ rest)); reflexivity).
  change (py_slice [85; 85; d; L] None (Some 2)) with [85; 85].
  rewrite list_Z_eqb_refl. cbn [negb].
  erewrite bind_ok by reflexivity.
  change (py_index [85; 85; d; L] 2) with (Ok (A:=Z) d).
  change (py_index [85; 85; d; L] 3) with (Ok (A:=Z) L).
  destruct (negb (servo_id =? SERVO_BRODCAST) && negb (d =? servo_id)) eqn:Eid.
  - apply andb_true_iff in Eid. destruct Eid as [E1 E2]. rewrite E1.
    erewrite bind_raise; [reflexivity|].
    unfold bind, lift. rewrite E2. cbn [app]. rewrite <- app_assoc.
    reflexivity.
  - erewrite bind_ok.
    2:{ destruct (negb (servo_id =? SERVO_BRODCAST)); [|reflexivity].
        cbn [andb] in Eid. unfold bind, lift. rewrite Eid. reflexivity. }
    erewrite bind_ok by reflexivity.
    erewrite bind_ok
      by (apply (handle_read_prefix (op :: payload ++ [c]) rest);
          [reflexivity
          | cbn [length]; rewrite length_app; cbn [length]; lia]).
    assert (Hbuf : [85; 85; d; L] ++ op :: payload ++ [c]
                   = (85 :: 85 :: d :: L :: op :: payload) ++ [c])
      by reflexivity.
    rewrite Hbuf.
    rewrite (py_index_nth _ 4 op) by reflexivity.
    rewrite py_index_last.
    rewrite (py_slice_drop_last _ c 2) by (cbn [length]; lia).
    rewrite (py_slice_drop_last _ c 5) by (cbn [length]; lia).
    cbn [skipn].
    rewrite lnot_mod_256. fold (checksum (d :: L :: op :: payload)).
    destruct command as [cmd|].
    + destruct (negb (op =? Command_value cmd)) eqn:Ec.
      * erewrite bind_raise; [reflexivity|].
        unfold bind, lift. rewrite Ec. reflexivity.
      * erewrite bind_ok by (unfold bind, lift; rewrite Ec; reflexivity).
        unfold bind, lift, ret, raise.
        destruct (negb (c =? checksum (d :: L :: op :: payload)));
          [reflexivity|].
        destruct (Command_of_value op); reflexivity.
    + erewrite bind_ok by reflexivity.
      unfold bind, lift, ret, raise.
      destruct (negb (c =? checksum (d :: L :: op :: payload)));
        [reflexivity|].
      destruct (Command_of_value op); reflexivity.
Qed.

Lemma set_written_set_in_buffer (s : Serial) (ws buf : list Z) :
  set_written (set_in_buffer s buf) ws = set_in_buffer (set_written s ws) buf.
Proof. reflexivity. Qed.

(** A request with no payload followed by the read of its reply, on a port
    where the reply frame is waiting. *)
Lemma request_reply {A} (servo_id d : Z) (cmd : Command)
  (payload rest : list Z) (k : Command * list Z -> M A) (s : Serial)
  (n : nat) (out warns : list string) (gid : option Z) :
  0 <= servo_id <= 255 -> writable s = true ->
  servo_id = SERVO_BRODCAST \/ d = servo_id ->
  (send_command servo_id cmd [] ;;;
   r <- read_response servo_id (Some cmd) ;; k r)
    (mkWorld (Some (set_in_buffer s (frame d cmd payload ++ rest)))
             n out warns gid)
  = k (cmd, payload)
      (mkWorld (Some (set_in_buffer
                        (set_written s (written s ++ frame servo_id cmd []))
                        rest))
               n out warns gid).
Proof.
  intros Hid Hw Hd.
  erewrite bind_ok.
  2:{ rewrite send_command_connected by (lia || exact Hw).
      cbn [length Nat.leb]. rewrite set_written_set_in_buffer.
      cbn [written set_in_buffer]. reflexivity. }
  erewrite bind_ok; [reflexivity|].
  unfold frame. rewrite <- !app_assoc.
  rewrite read_response_decides. cbv zeta.
  assert (E1 : negb (servo_id =? SERVO_BRODCAST) && negb (d =? servo_id)
               = false).
  { destruct Hd as [-> | ->]; [reflexivity|].
    rewrite Z.eqb_refl. apply andb_false_r. }
  rewrite E1, !Z.eqb_refl. cbn [negb].
  rewrite Command_of_value_value. reflexivity.
Qed.

Lemma bytes2param_unsigned (l : list Z) : bytes2param l false = le_value l.
Proof. reflexivity. Qed.

Lemma py_slice_mid {A} (a b r : list A) :
  py_slice (a ++ b ++ r) (Some (Z.of_nat (length a)))
           (Some (Z.of_nat (length a + length b))) = b.
Proof.
  unfold py_slice, clamp. rewrite !length_app.
  destruct (Z.of_nat (length a) <? 0) eqn:E1; [apply Z.ltb_lt in E1; lia|].
  destruct (Z.of_nat (length a + length b) <? 0) eqn:E2;
    [apply Z.ltb_lt in E2; lia|].
  rewrite !Z.min_l by lia. rewrite Nat2Z.id.
  rewrite skipn_app, Nat.sub_diag, skipn_all. cbn [app skipn].
  replace (Z.to_nat (Z.of_nat (length a + length b) - Z.of_nat (length a)))
    with (length b) by lia.
  rewrite firstn_app, Nat.sub_diag, firstn_all. cbn [firstn].
  apply app_nil_r.
Qed.

(** [get_max_temp_limit], [get_temp], [get_vin] and [get_pos]: with the
    matching reply waiting, each writes its request frame (no payload),
    consumes exactly the reply and returns the payload read as an unsigned
    little-endian number, whatever its length. *)
Theorem scalar_getters_reply (getter : ServoObject -> M Z) (cmd : Command)
  (servo_id d : Z) (payload rest : list Z) (s : Serial) (n : nat)
  (out warns : list string) (gid : option Z) :
  In (getter, cmd)
     [(get_max_temp_limit, SERVO_TEMP_MAX_LIMIT_READ);
      (get_temp, SERVO_TEMP_READ);
      (get_vin, SERVO_VIN_READ);
      (get_pos, SERVO_POS_READ)] ->
  0 <= servo_id <= 255 -> writable s = true ->
  servo_id = SERVO_BRODCAST \/ d = servo_id ->
  getter servo_id
    (mkWorld (Some (set_in_buffer s (frame d cmd payload ++ rest)))
             n out warns gid)
  = (Ok (le_value payload),
     mkWorld (Some (set_in_buffer
                      (set_written s (written s ++ frame servo_id cmd []))
                      rest))
             n out warns gid).
Proof.
  intros Hin Hid Hw Hd.
  cbn [In] in Hin.
  destruct Hin as [H | [H | [H | [H | []]]]]; inversion H; subst getter cmd;
    clear H.
  all: match goal with |- ?g _ _ = _ => unfold g end.
  all: run_with check_handle_connected.
  all: rewrite request_reply by assumption; reflexivity.
Qed.

Lemma py_slice_0_2 (a0 a1 : Z) (more : list Z) :
  py_slice (a0 :: a1 :: more) (Some 0) (Some 2) = [a0; a1].
Proof. exact (py_slice_mid [] [a0; a1] more). Qed.

Lemma py_slice_2_4 (a0 a1 b0 b1 : Z) (more : list Z) :
  py_slice (a0 :: a1 :: b0 :: b1 :: more) (Some 2) (Some 4) = [b0; b1].
Proof. exact (py_slice_mid [a0; a1] [b0; b1] more). Qed.

Lemma py_slice_2_3 (a0 a1 b0 : Z) (more : list Z) :
  py_slice (a0 :: a1 :: b0 :: more) (Some 2) (Some 3) = [b0].
Proof. exact (py_slice_mid [a0; a1] [b0] more). Qed.

(** [get_angle_limit], [get_vin_limit] and [get_move_time] without
    [is_wait]: the result is the pair of the unsigned 16-bit little-endian
    numbers in payload bytes 0..1 and 2..3; further payload bytes are
    ignored. *)
Theorem pair_getters_reply (getter : ServoObject -> M (Z * Z))
  (cmd : Command) (servo_id d a0 a1 b0 b1 : Z) (more rest : list Z)
  (s : Serial) (n : nat) (out warns : list string) (gid : option Z) :
  In (getter, cmd)
     [(get_angle_limit, SERVO_ANGLE_LIMIT_READ);
      (get_vin_limit, SERVO_VIN_LIMIT_READ);
      (fun servo_id => get_move_time servo_id false, SERVO_MOVE_TIME_READ)] ->
  0 <= servo_id <= 255 -> writable s = true ->
  servo_id = SERVO_BRODCAST \/ d = servo_id ->
  getter servo_id
    (mkWorld (Some (set_in_buffer s
                      (frame d cmd (a0 :: a1 :: b0 :: b1 :: more) ++ rest)))
             n out warns gid)
  = (Ok (a0 + 256 * a1, b0 + 256 * b1),
     mkWorld (Some (set_in_buffer
                      (set_written s (written s ++ frame servo_id cmd []))
                      rest))
             n out warns gid).
Proof.
  intros Hin Hid Hw Hd.
  cbn [In] in Hin.
  destruct Hin as [H | [H | [H | []]]]; inversion H; subst getter cmd;
    clear H.
  all: try match goal with |- ?g _ _ = _ => unfold g end.
  all: try unfold get_move_time.
  all: run_with check_handle_connected.
  all: rewrite request_reply by assumption.
  all: cbn [snd]; rewrite py_slice_0_2, py_slice_2_4.
  all: rewrite !bytes2param_unsigned; cbn [le_value].
  all: unfold ret; repeat f_equal; lia.
Qed.

(** [get_move_time] with [is_wait]: the request is written and the reply
    consumed, and then decoding the pair [read_response] returned (instead of
    its payload) raises a [TypeError]; no value is ever returned. *)
Theorem get_move_time_wait_raises (servo_id d : Z) (payload rest : list Z)
  (s : Serial) (n : nat) (out warns : list string) (gid : option Z) :
  0 <= servo_id <= 255 -> writable s = true ->
  servo_id = SERVO_BRODCAST \/ d = servo_id ->
  get_move_time servo_id true
    (mkWorld (Some (set_in_buffer s
                      (frame d SERVO_MOVE_TIME_WAIT_READ payload ++ rest)))
             n out warns gid)
  = (Raise (TypeError "'bytes' object cannot be interpreted as an integer"),
     mkWorld (Some (set_in_buffer
                      (set_written s
                         (written s
                          ++ frame servo_id SERVO_MOVE_TIME_WAIT_READ []))
                      rest))
             n out warns gid).
Proof.
  intros Hid Hw Hd. unfold get_move_time.
  run_with check_handle_connected.
  rewrite request_reply by assumption. reflexivity.
Qed.

Lemma bytes2param_one_signed (b : Z) :
  0 <= b < 256 ->
  bytes2param [b] true = if b <? 128 then b else b - 256.
Proof.
  intros Hb. unfold bytes2param, from_bytes_little. cbn [le_value length].
  change (256 ^ Z.of_nat 1) with 256. change (256 / 2) with 128.
  change (256 =? 1) with false. cbn [negb andb].
  replace (b + 256 * 0) with b by lia.
  destruct (128 <=? b) eqn:E1, (b <? 128) eqn:E2; try reflexivity.
  - apply Z.leb_le in E1. apply Z.ltb_lt in E2. lia.
  - apply Z.leb_gt in E1. apply Z.ltb_ge in E2. lia.
Qed.

(** [get_angle_offset] writes the [SERVO_ID_READ] request (opcode 14): it
    returns the byte of an identifier reply read as a signed number, and
    refuses a reply whose opcode is [SERVO_ANGLE_OFFSET_READ]. *)
Theorem get_angle_offset_reads_id (servo_id d b : Z) (rest : list Z)
  (s : Serial) (n : nat) (out warns : list string) (gid : option Z) :
  0 <= servo_id <= 255 -> writable s = true ->
  servo_id = SERVO_BRODCAST \/ d = servo_id ->
  0 <= b < 256 ->
  let asked := frame servo_id SERVO_ID_READ [] in
  let after := fun left =>
    mkWorld (Some (set_in_buffer (set_written s (written s ++ asked)) left))
            n out warns gid in
  nth_error asked 4 = Some 14
  /\ get_angle_offset servo_id
       (mkWorld (Some (set_in_buffer s (frame d SERVO_ID_READ [b] ++ rest)))
                n out warns gid)
     = (Ok (if b <? 128 then b else b - 256), after rest)
  /\ get_angle_offset servo_id
       (mkWorld (Some (set_in_buffer s
                         (frame d SERVO_ANGLE_OFFSET_READ [b] ++ rest)))
                n out warns gid)
     = (Raise (RuntimeError "Invalid response command"), after rest).
Proof.
  intros Hid Hw Hd Hb asked after. unfold asked, after.
  split; [reflexivity|]. split.
  - unfold get_angle_offset.
    run_with check_handle_connected.
    rewrite request_reply by assumption.
    cbn [snd]. rewrite bytes2param_one_signed by assumption. reflexivity.
  - unfold get_angle_offset.
    run_with check_handle_connected.
    erewrite bind_ok.
    2:{ rewrite send_command_connected by (lia || exact Hw).
        cbn [length Nat.leb]. rewrite set_written_set_in_buffer.
        cbn [written set_in_buffer]. reflexivity. }
    erewrite bind_raise; [reflexivity|].
    unfold frame. rewrite <- !app_assoc.
    rewrite read_response_decides. cbv zeta.
    assert (E1 : negb (servo_id =? SERVO_BRODCAST) && negb (d =? servo_id)
                 = false).
    { destruct Hd as [-> | ->]; [reflexivity|].
      rewrite Z.eqb_refl. apply andb_false_r. }
    rewrite E1. reflexivity.
Qed.

(** [get_motor_mode] returns whether payload byte 0 is non-zero, and as
    speed the single payload byte 2, unsigned: the high byte of the speed is
    never read. *)
Theorem get_motor_mode_reply (servo_id d mode x lo : Z) (more rest : list Z)
  (s : Serial) (n : nat) (out warns : list string) (gid : option Z) :
  0 <= servo_id <= 255 -> writable s = true ->
  servo_id = SERVO_BRODCAST \/ d = servo_id ->
  get_motor_mode servo_id
    (mkWorld (Some (set_in_buffer s
                      (frame d SERVO_OR_MOTOR_MODE_READ
                             (mode :: x :: lo :: more) ++ rest)))
             n out warns gid)
  = (Ok (negb (mode =? 0), lo),
     mkWorld (Some (set_in_buffer
                      (set_written s
                         (written s
                          ++ frame servo_id SERVO_OR_MOTOR_MODE_READ []))
                      rest))
             n out warns gid).
Proof.
  intros Hid Hw Hd. unfold get_motor_mode.
  run_with check_handle_connected.
  rewrite request_reply by assumption.
  cbn [snd]. rewrite py_slice_2_3.
  change (py_index (mode :: x :: lo :: more) 0) with (Ok (A:=Z) mode).
  unfold bind, lift, ret. rewrite bytes2param_unsigned. cbn [le_value].
  unfold py_bool. repeat f_equal. lia.
Qed.

Lemma land_pow2_testbit (a k : Z) :
  0 <= k -> py_bool (Z.land a (2 ^ k)) = Z.testbit a k.
Proof.
  intros Hk. unfold py_bool.
  destruct (Z.testbit a k) eqn:E.
  - apply negb_true_iff, Z.eqb_neq. intros H0.
    assert (Hb : Z.testbit (Z.land a (2 ^ k)) k = true).
    { rewrite Z.land_spec, E, Z.pow2_bits_true by lia. reflexivity. }
    rewrite H0, Z.bits_0 in Hb. discriminate.
  - apply negb_false_iff, Z.eqb_eq. apply Z.bits_inj'. intros i Hi.
    rewrite Z.land_spec, Z.bits_0, Z.pow2_bits_eqb by lia.
    destruct (Z.eqb_spec k i) as [-> | Hne].
    + rewrite E. reflexivity.
    + apply andb_false_r.
Qed.

(** [get_led_error] returns bits 0, 1 and 2 of the first payload byte. *)
Theorem get_led_error_reply (servo_id d status : Z) (more rest : list Z)
  (s : Serial) (n : nat) (out warns : list string) (gid : option Z) :
  0 <= servo_id <= 255 -> writable s = true ->
  servo_id = SERVO_BRODCAST \/ d = servo_id ->
  get_led_error servo_id
    (mkWorld (Some (set_in_buffer s
                      (frame d SERVO_LED_ERROR_READ (status :: more) ++ rest)))
             n out warns gid)
  = (Ok (Z.testbit status 0, Z.testbit status 1, Z.testbit status 2),
     mkWorld (Some (set_in_buffer
                      (set_written s
                         (written s ++ frame servo_id SERVO_LED_ERROR_READ []))
                      rest))
             n out warns gid).
Proof.
  intros Hid Hw Hd. unfold get_led_error.
  run_with check_handle_connected.
  rewrite request_reply by assumption.
  cbn [snd].
  change (py_index (status :: more) 0) with (Ok (A:=Z) status).
  unfold bind, lift, ret.
  pose proof (land_pow2_testbit status 0 ltac:(lia)) as H0.
  pose proof (land_pow2_testbit status 1 ltac:(lia)) as H1.
  pose proof (land_pow2_testbit status 2 ltac:(lia)) as H2.
  change (2 ^ 0) with 1 in H0. change (2 ^ 1) with 2 in H1.
  change (2 ^ 2) with 4 in H2.
  rewrite H0, H1, H2. reflexivity.
Qed.

(** [get_is_load] and [get_led] return whether the first payload byte is
    non-zero. *)
Theorem flag_getters_reply (getter : ServoObject -> M bool) (cmd : Command)
  (servo_id d b : Z) (more rest : list Z) (s : Serial) (n : nat)
  (out warns : list string) (gid : option Z) :
  In (getter, cmd)
     [(get_is_load, SERVO_LOAD_OR_UNLOAD_READ);
      (get_led, SERVO_LED_CTRL_READ)] ->
  0 <= servo_id <= 255 -> writable s = true ->
  servo_id = SERVO_BRODCAST \/ d = servo_id ->
  getter servo_id
    (mkWorld (Some (set_in_buffer s (frame d cmd (b :: more) ++ rest)))
             n out warns gid)
  = (Ok (negb (b =? 0)),
     mkWorld (Some (set_in_buffer
                      (set_written s (written s ++ frame servo_id cmd []))
                      rest))
             n out warns gid).
Proof.
  intros Hin Hid Hw Hd.
  cbn [In] in Hin.
  destruct Hin as [H | [H | []]]; inversion H; subst getter cmd; clear H.
  all: match goal with |- ?g _ _ = _ => unfold g end.
  all: run_with check_handle_connected.
  all: rewrite request_reply by assumption; reflexivity.
Qed.

(** [get_id] returns the first payload byte of the reply; asked of the
    broadcast identifier, it takes the reply of whichever servo answers. *)
Theorem get_id_reply (servo_id d b : Z) (more rest : list Z) (s : Serial)
  (n : nat) (out warns : list string) (gid : option Z) :
  0 <= servo_id <= 255 -> writable s = true ->
  servo_id = SERVO_BRODCAST \/ d = servo_id ->
  get_id servo_id
    (mkWorld (Some (set_in_buffer s
                      (frame d SERVO_ID_READ (b :: more) ++ rest)))
             n out warns gid)
  = (Ok b,
     mkWorld (Some (set_in_buffer
                      (set_written s
                         (written s ++ frame servo_id SERVO_ID_READ []))
                      rest))
             n out warns gid).
Proof.
  intros Hid Hw Hd. unfold get_id.
  run_with check_handle_connected.
  rewrite request_reply by assumption. reflexivity.
Qed.






Ltac index_error :=
  run_with check_handle_connected;
  rewrite request_reply by assumption;
  reflexivity.

(** A reply with an empty payload: the queries that decode the whole
    payload return zeros, those that index it raise [IndexError]; either way
    the request was written and the reply consumed. *)
Theorem getters_empty_payload (servo_id d : Z) (rest : list Z) (s : Serial)
  (n : nat) (out warns : list string) (gid : option Z) :
  0 <= servo_id <= 255 -> writable s = true ->
  servo_id = SERVO_BRODCAST \/ d = servo_id ->
  let replied := fun cmd =>
    mkWorld (Some (set_in_buffer s (frame d cmd [] ++ rest))) n out warns gid in
  let done := fun cmd =>
    mkWorld (Some (set_in_buffer
                     (set_written s (written s ++ frame servo_id cmd []))
                     rest))
            n out warns gid in
  get_pos servo_id (replied SERVO_POS_READ) = (Ok 0, done SERVO_POS_READ)
  /\ get_angle_limit servo_id (replied SERVO_ANGLE_LIMIT_READ)
     = (Ok (0, 0), done SERVO_ANGLE_LIMIT_READ)
  /\ get_id servo_id (replied SERVO_ID_READ)
     = (Raise (IndexError "index out of range"), done SERVO_ID_READ)
  /\ get_motor_mode servo_id (replied SERVO_OR_MOTOR_MODE_READ)
     = (Raise (IndexError "index out of range"),
        done SERVO_OR_MOTOR_MODE_READ)
  /\ get_is_load servo_id (replied SERVO_LOAD_OR_UNLOAD_READ)
     = (Raise (IndexError "index out of range"),
        done SERVO_LOAD_OR_UNLOAD_READ)
  /\ get_led servo_id (replied SERVO_LED_CTRL_READ)
     = (Raise (IndexError "index out of range"), done SERVO_LED_CTRL_READ)
  /\ get_led_error servo_id (replied SERVO_LED_ERROR_READ)
     = (Raise (IndexError "index out of range"), done SERVO_LED_ERROR_READ).
Proof.
  intros Hid Hw Hd replied done. unfold replied, done.
  repeat split.
  all: match goal with |- ?g _ _ = _ => unfold g end.
  all: index_error.
Qed.

Ltac not_connected H :=
  erewrite bind_raise by (apply check_handle_unconnected; exact H);
  reflexivity.

(** On a controller that is not connected every operation but [connect]
    raises the not-connected [RuntimeError] and leaves the world as it
    was. *)
Theorem operations_need_connection (w : World) (servo_id : ServoObject)
  (command : Command) (expected : option Command) (params : list Z)
  (a b : Z) (flag f1 f2 f3 : bool) (speed : option Z) :
  handle w = None ->
  let refused := fun A : Type =>
    (@Raise A (RuntimeError "Servo controller is not connected"), w) in
  disconnect w = refused unit
  /\ send_command servo_id command params w = refused unit
  /\ read_response servo_id expected w = refused (Command * list Z)%type
  /\ set_move_time a b flag servo_id w = refused unit
  /\ get_move_time servo_id flag w = refused (Z * Z)%type
  /\ start_move servo_id w = refused unit
  /\ stop_move servo_id w = refused unit
  /\ set_id a servo_id w = refused unit
  /\ get_id servo_id w = refused Z
  /\ set_angle_offset a flag servo_id w = refused unit
  /\ get_angle_offset servo_id w = refused Z
  /\ set_angle_limit a b servo_id w = refused unit
  /\ get_angle_limit servo_id w = refused (Z * Z)%type
  /\ set_vin_limit a b servo_id w = refused unit
  /\ get_vin_limit servo_id w = refused (Z * Z)%type
  /\ set_max_temp_limit a servo_id w = refused unit
  /\ get_max_temp_limit servo_id w = refused Z
  /\ get_temp servo_id w = refused Z
  /\ get_vin servo_id w = refused Z
  /\ get_pos servo_id w = refused Z
  /\ set_motor_mode speed servo_id w = refused unit
  /\ get_motor_mode servo_id w = refused (bool * Z)%type
  /\ set_is_load flag servo_id w = refused unit
  /\ get_is_load servo_id w = refused bool
  /\ set_led flag servo_id w = refused unit
  /\ get_led servo_id w = refused bool
  /\ set_led_error f1 f2 f3 servo_id w = refused unit
  /\ get_led_error servo_id w = refused (bool * bool * bool)%type.
Proof.
  intros H refused. unfold refused.
  repeat match goal with |- _ /\ _ => split end.
  all: unfold disconnect, set_move_time, set_move_time_with, get_move_time,
         start_move, stop_move, set_id, set_id_with, get_id,
         set_angle_offset, get_angle_offset, set_angle_limit,
         get_angle_limit, set_vin_limit, get_vin_limit, set_max_temp_limit,
         get_max_temp_limit, get_temp, get_vin, get_pos, set_motor_mode,
         set_motor_mode_with, get_motor_mode, set_is_load, get_is_load,
         set_led, get_led, set_led_error, get_led_error, send_command,
         read_response.
  all: not_connected H.
Qed.

(** [disconnect] on a connected controller drops the handle, closes one
    transport and prints; after it a second [disconnect] and any
    [send_command] are refused. *)
Theorem disconnect_then_refuses (s : Serial) (n : nat)
  (out warns : list string) (gid : option Z) (servo_id : ServoObject)
  (command : Command) (params : list Z) :
  let w := mkWorld (Some s) n out warns gid in
  let w' := mkWorld None (pred n)
                    (out ++ ["Servo controller disconnected"%string])
                    warns gid in
  disconnect w = (Ok tt, w')
  /\ disconnect w'
     = (Raise (RuntimeError "Servo controller is not connected"), w')
  /\ send_command servo_id command params w'
     = (Raise (RuntimeError "Servo controller is not connected"), w').
Proof.
  intros w w'. unfold w, w'. repeat split.
Qed.

(** [connect] on an unconnected controller: when the constructor returns a
    port it becomes the handle and one more transport is open; when the
    constructor raises, the exception goes to the caller and the controller
    stays unconnected. *)
Lemma connect_unconnected
  (serial_Serial : string -> option Z -> option float -> result Serial)
  (device : string) (baud : option Z) (tmo : option float) (w : World) :
  handle w = None ->
  match serial_Serial device baud tmo with
  | Ok s =>
      connect serial_Serial device baud tmo w
      = (Ok tt,
         mkWorld (Some s) (S (open_ports w))
                 (stdout w ++ ["Servo controller connected"%string])
                 (warnings_shown w) (global_id w))
  | Raise e => connect serial_Serial device baud tmo w = (Raise e, w)
  | Hang => connect serial_Serial device baud tmo w = (Hang, w)
  end.
Proof.
  intros H. unfold connect. rewrite H.
  destruct (serial_Serial device baud tmo); reflexivity.
Qed.

Lemma to_bytes_negative (n : Z) :
  n < 0 ->
  int_to_bytes n [AInt 1; AStr "little"] None
  = Raise (OverflowError "can't convert negative int to unsigned").
Proof.
  intros H. unfold int_to_bytes, to_bytes_impl.
  change (1 <? 0) with false. cbv iota zeta.
  change (String.eqb "little" "little") with true. cbn [negb andb].
  destruct (n <? 0) eqn:E0; [reflexivity|apply Z.ltb_ge in E0; lia].
Qed.

(** A destination outside 0..255 makes [send_command] raise
    [OverflowError] with nothing written. *)
Theorem send_command_bad_destination (servo_id : Z) (command : Command)
  (params : list Z) (s : Serial) (n : nat) (out warns : list string)
  (gid : option Z) :
  servo_id < 0 \/ 255 < servo_id ->
  send_command servo_id command params (mkWorld (Some s) n out warns gid)
  = (Raise (OverflowError
              (if servo_id <? 0
               then "can't convert negative int to unsigned"
               else "int too big to convert")),
     mkWorld (Some s) n out warns gid).
Proof.
  intros H. unfold send_command.
  run_with check_handle_connected.
  erewrite bind_raise; [reflexivity|].
  unfold lift, send_command_buffer.
  destruct (servo_id <? 0) eqn:E.
  - apply Z.ltb_lt in E. rewrite to_bytes_negative by exact E. reflexivity.
  - apply Z.ltb_ge in E. rewrite to_bytes_too_big by lia. reflexivity.
Qed.

(** When the transport refuses the write, [send_command] prints, raises the
    transport's exception again and has written nothing. *)
Theorem send_command_write_fails (servo_id : Z) (command : Command)
  (params : list Z) (s : Serial) (n : nat) (out warns : list string)
  (gid : option Z) :
  0 <= servo_id <= 255 -> (length params <= 252)%nat ->
  writable s = false ->
  send_command servo_id command params (mkWorld (Some s) n out warns gid)
  = (Raise SerialException,
     mkWorld (Some s) n (out ++ ["Error"%string]) warns gid).
Proof.
  intros Hid Hlen Hw. unfold send_command.
  run_with check_handle_connected.
  unfold bind at 1. unfold lift.
  rewrite send_command_buffer_frame by (lia || assumption).
  unfold handle_write, Serial_write. cbn [handle]. rewrite Hw.
  reflexivity.
Qed.

Lemma to_bytes_byte_inv (n : Z) (bs : list Z) :
  int_to_bytes n [AInt 1; AStr "little"] None = Ok bs -> 0 <= n < 256.
Proof.
  intros H.
  destruct (Z_lt_le_dec n 0) as [Hn | Hn].
  - rewrite to_bytes_negative in H by exact Hn. discriminate.
  - destruct (Z_lt_le_dec n 256) as [Hb | Hb]; [lia|].
    rewrite to_bytes_too_big in H by exact Hb. discriminate.
Qed.

Lemma send_command_buffer_inv (servo_id : Z) (command : Command)
  (params buffer : list Z) :
  send_command_buffer servo_id command params = Ok buffer ->
  0 <= servo_id < 256 /\ (length params <= 252)%nat.
Proof.
  intros H. unfold send_command_buffer in H.
  destruct (int_to_bytes servo_id [AInt 1; AStr "little"] None)
    as [b1| |] eqn:E1; try discriminate.
  apply to_bytes_byte_inv in E1. split; [exact E1|].
  cbn [rbind] in H.
  destruct (int_to_bytes (Z.of_nat (length params) + 3)
              [AInt 1; AStr "little"] None) as [b2| |] eqn:E2;
    try discriminate.
  apply to_bytes_byte_inv in E2. lia.
Qed.

(** Every buffer [send_command] builds is six bytes longer than the
    payload, starts 0x55 0x55, carries its own length minus 3 in byte 3, has
    bytes 2.. summing to 255 mod 256, and holds only bytes when the payload
    does. *)
Theorem send_command_buffer_invariants (servo_id : Z) (command : Command)
  (params buffer : list Z) :
  send_command_buffer servo_id command params = Ok buffer ->
  length buffer = (length params + 6)%nat
  /\ firstn 2 buffer = [0x55; 0x55]
  /\ nth_error buffer 3 = Some (Z.of_nat (length buffer) - 3)
  /\ py_sum (skipn 2 buffer) mod 256 = 255
  /\ (all_bytes params -> all_bytes buffer).
Proof.
  intros H.
  destruct (send_command_buffer_inv _ _ _ _ H) as [Hid Hlen].
  rewrite send_command_buffer_frame in H by assumption.
  injection H as <-. unfold frame.
  set (body := servo_id :: Z.of_nat (length params) + 3
                        :: Command_value command :: params).
  assert (Hl : length ([85; 85] ++ body ++ [checksum body])
               = (length params + 6)%nat).
  { unfold body. cbn [app length]. rewrite length_app. cbn [length]. lia. }
  split; [exact Hl|]. split; [reflexivity|]. split.
  - rewrite Hl. unfold body. cbn [app nth_error]. f_equal. lia.
  - split.
    + cbn [app skipn].
      assert (Hs : forall (l : list Z) (x : Z),
                 py_sum (l ++ [x]) = py_sum l + x).
      { intros l x. unfold py_sum.
        induction l as [|y l IH]; cbn [app fold_right]; [lia|].
        rewrite IH. lia. }
      rewrite Hs, checksum_complement.
      pose proof (Z.mod_pos_bound (py_sum body) 256 ltac:(lia)) as Hb.
      pose proof (Z.div_mod (py_sum body) 256 ltac:(lia)) as Hd.
      symmetry. apply Z.mod_unique with (q := py_sum body / 256); lia.
    + intros Hp. unfold all_bytes in *.
      unfold body. cbn [app].
      do 5 (apply Forall_cons; [lia || apply Command_value_byte|]).
      apply Forall_app. split; [exact Hp|].
      apply Forall_cons; [|constructor].
      rewrite checksum_complement.
      pose proof (Z.mod_pos_bound
                    (py_sum (servo_id :: Z.of_nat (length params) + 3
                               :: Command_value command :: params))
                    256 ltac:(lia)). lia.
Qed.

(** A reply cut off after the header (at most three bytes read, on a port
    with a timeout), with no identifier mismatch to report: [read_response]
    raises [IndexError], not a protocol error. *)
Theorem read_response_truncated_header (servo_id : Z)
  (command : option Command) (tail : list Z) (t : float) (r : Serial)
  (n : nat) (out warns : list string) (gid : option Z) :
  timeout r = Some t ->
  tail = [] \/ tail = [servo_id] \/
  (servo_id = SERVO_BRODCAST /\ (length tail <= 1)%nat) ->
  read_response servo_id command
    (mkWorld (Some (set_in_buffer r (0x55 :: 0x55 :: tail))) n out warns gid)
  = (Raise (IndexError "index out of range"),
     mkWorld (Some (set_in_buffer r [])) n out warns gid).
Proof.
  intros Ht Hl. unfold read_response.
  run_with check_handle_connected.
  run_with wait_for_response_ready.
  assert (Hlen : (length tail <= 1)%nat).
  { destruct Hl as [-> | [-> | [_ H]]]; cbn; lia. }
  assert (Hread : handle_read 4
            (mkWorld (Some (set_in_buffer r (85 :: 85 :: tail)))
                     n out warns gid)
          = (Ok (85 :: 85 :: tail),
             mkWorld (Some (set_in_buffer r [])) n out warns gid)).
  { unfold handle_read, Serial_read.
    cbn [handle timeout set_in_buffer in_buffer]. rewrite Ht.
    destruct tail as [|x [|y tail]]; cbn in Hlen; try lia; reflexivity. }
  erewrite bind_ok by exact Hread.
  destruct tail as [|x [|y tail]]; cbn in Hlen; try lia.
  - destruct (servo_id =? SERVO_BRODCAST) eqn:E; reflexivity.
  - change (py_slice [85; 85; x] None (Some 2)) with [85; 85].
    rewrite list_Z_eqb_refl. cbn [negb].
    erewrite bind_ok by reflexivity.
    erewrite bind_ok.
    2:{ apply servo_id_check_passes.
        destruct Hl as [H | [H | [H _]]];
          [discriminate | right | left; exact H].
        injection H as ->. reflexivity. }
    reflexivity.
Qed.

Ltac frame_eq :=
  cbn [Z.of_nat Pos.of_succ_nat Pos.succ];
  repeat match goal with
         | |- (_, _) = (_, _) => f_equal
         | |- mkWorld _ _ _ _ _ = mkWorld _ _ _ _ _ => f_equal
         | |- Some _ = Some _ => f_equal
         | |- set_written _ _ = set_written _ _ => f_equal
         | |- _ ++ _ = _ ++ _ => f_equal
         | |- _ :: _ = _ :: _ => f_equal
         | |- 255 - _ mod 256 = 255 - _ mod 256 => do 2 f_equal
         end;
  try reflexivity; lia.

(** [start_move] and [stop_move] each write one six-byte frame, opcode 11
    and 12. *)
Theorem start_stop_move_frame (servo_id : Z) (s : Serial) (n : nat)
  (out warns : list string) (gid : option Z) :
  0 <= servo_id <= 255 -> writable s = true ->
  let w := mkWorld (Some s) n out warns gid in
  let wrote := fun bs =>
    mkWorld (Some (set_written s (written s ++ bs))) n out warns gid in
  start_move servo_id w
  = (Ok tt,
     wrote [0x55; 0x55; servo_id; 3; 11; 255 - (servo_id + 14) mod 256])
  /\ stop_move servo_id w
     = (Ok tt,
        wrote [0x55; 0x55; servo_id; 3; 12; 255 - (servo_id + 15) mod 256]).
Proof.
  intros Hid Hw w wrote. unfold w, wrote, start_move, stop_move.
  split.
  all: run_with check_handle_connected.
  all: rewrite send_command_connected by (lia || exact Hw).
  all: cbn [length Nat.leb]; unfold frame; rewrite checksum_complement.
  all: cbn [py_sum fold_right length app Command_value].
  all: frame_eq.
Qed.

(** [set_is_load] and [set_led] each write one seven-byte frame whose
    payload byte is 1 or 0. *)
Theorem set_is_load_set_led_frame (flag : bool) (servo_id : Z) (s : Serial)
  (n : nat) (out warns : list string) (gid : option Z) :
  0 <= servo_id <= 255 -> writable s = true ->
  let w := mkWorld (Some s) n out warns gid in
  let wrote := fun bs =>
    mkWorld (Some (set_written s (written s ++ bs))) n out warns gid in
  let b := if flag then 1 else 0 in
  set_is_load flag servo_id w
  = (Ok tt,
     wrote [0x55; 0x55; servo_id; 4; 31; b;
            255 - (servo_id + 35 + b) mod 256])
  /\ set_led flag servo_id w
     = (Ok tt,
        wrote [0x55; 0x55; servo_id; 4; 33; b;
               255 - (servo_id + 37 + b) mod 256]).
Proof.
  intros Hid Hw w wrote b. unfold w, wrote, b, set_is_load, set_led.
  split.
  all: run_with check_handle_connected.
  all: destruct flag.
  all: erewrite bind_ok by reflexivity.
  all: rewrite send_command_connected by (lia || exact Hw).
  all: cbn [length Nat.leb]; unfold frame; rewrite checksum_complement.
  all: cbn [py_sum fold_right length app Command_value].
  all: frame_eq.
Qed.

(** [set_motor_mode] with no speed writes one [SERVO_OR_MOTOR_MODE_WRITE]
    frame (opcode 29) with four zero bytes. *)
Theorem set_motor_mode_servo_frame (servo_id : Z) (s : Serial) (n : nat)
  (out warns : list string) (gid : option Z) :
  0 <= servo_id <= 255 -> writable s = true ->
  set_motor_mode None servo_id (mkWorld (Some s) n out warns gid)
  = (Ok tt,
     mkWorld (Some (set_written s
                      (written s
                       ++ [0x55; 0x55; servo_id; 7; 29; 0; 0; 0; 0;
                           255 - (servo_id + 36) mod 256])))
             n out warns gid).
Proof.
  intros Hid Hw. unfold set_motor_mode, set_motor_mode_with.
  run_with check_handle_connected.
  rewrite send_command_connected by (lia || exact Hw).
  cbn [length Nat.leb]. unfold frame. rewrite checksum_complement.
  cbn [py_sum fold_right length app Command_value].
  frame_eq.
Qed.

Ltac range_test c :=
  destruct c; [reflexivity | erewrite bind_ok by reflexivity].

(** [set_angle_offset], [set_angle_limit], [set_vin_limit],
    [set_max_temp_limit] and [set_move_time] never write: out of range they
    raise their range error, and in range [param2bytes] raises a
    [TypeError]. *)
Theorem range_checked_setters_never_write (a b : Z) (flag : bool)
  (servo_id : ServoObject) (s : Serial) (n : nat) (out warns : list string)
  (gid : option Z) :
  let w := mkWorld (Some s) n out warns gid in
  let encoder_refuses :=
    TypeError "to_bytes() takes at most 2 positional arguments" in
  set_angle_offset a flag servo_id w
  = (Raise (if (a <? -125) || (a >? 125)
            then ValueError "Invalid offset (-125~125)"
            else encoder_refuses), w)
  /\ set_angle_limit a b servo_id w
     = (Raise (if (a <? 0) || (a >? 1000)
               then RuntimeError "Invalid min angle (0~1000)"
               else if (b <? 0) || (b >? 1000)
               then RuntimeError "Invalid max angle (0~1000)"
               else encoder_refuses), w)
  /\ set_vin_limit a b servo_id w
     = (Raise (if (a <? 4500) || (a >? 12000)
               then RuntimeError "Invalid min vin (4500~12000)"
               else if (b <? 4500) || (b >? 12000)
               then RuntimeError "Invalid max vin (4500~12000)"
               else encoder_refuses), w)
  /\ set_max_temp_limit a servo_id w
     = (Raise (if (a <? 50) || (a >? 100)
               then RuntimeError "Invalid max temp (50~100)"
               else encoder_refuses), w)
  /\ set_move_time a b flag servo_id w
     = (Raise (if (a <? 0) || (a >? 1000)
               then RuntimeError "Invalid position (0~1000)"
               else if (b <? 0) || (b >? 30000)
               then RuntimeError "Invalid time (0~30000)"
               else encoder_refuses), w).
Proof.
  intros w encoder_refuses. unfold w, encoder_refuses.
  repeat match goal with |- _ /\ _ => split end.
  - unfold set_angle_offset. run_with check_handle_connected.
    range_test ((a <? -125) || (a >? 125)).
    destruct flag; reflexivity.
  - unfold set_angle_limit. run_with check_handle_connected.
    range_test ((a <? 0) || (a >? 1000)).
    range_test ((b <? 0) || (b >? 1000)).
    reflexivity.
  - unfold set_vin_limit. run_with check_handle_connected.
    range_test ((a <? 4500) || (a >? 12000)).
    range_test ((b <? 4500) || (b >? 12000)).
    reflexivity.
  - unfold set_max_temp_limit. run_with check_handle_connected.
    range_test ((a <? 50) || (a >? 100)).
    reflexivity.
  - unfold set_move_time, set_move_time_with.
    run_with check_handle_connected.
    range_test ((a <? 0) || (a >? 1000)).
    range_test ((b <? 0) || (b >? 30000)).
    destruct flag; reflexivity.
Qed.

(** ** The decoder *)

Lemma le_value_bounds (l : list Z) :
  all_bytes l -> 0 <= le_value l < 256 ^ Z.of_nat (length l).
Proof.
  unfold all_bytes. induction 1 as [|b l Hb Hl IH].
  - simpl. lia.
  - cbn [le_value length]. rewrite Nat2Z.inj_succ, Z.pow_succ_r by lia. lia.
Qed.

Lemma le_value_injective (l1 l2 : list Z) :
  all_bytes l1 -> all_bytes l2 -> length l1 = length l2 ->
  le_value l1 = le_value l2 -> l1 = l2.
Proof.
  unfold all_bytes. intros H1. revert l2.
  induction H1 as [|b l Hb Hl IH]; intros l2 H2 Hlen Hv.
  - destruct l2; [reflexivity|discriminate].
  - destruct l2 as [|c l2]; [discriminate|].
    inversion H2 as [|c' l2' Hc Hl2]; subst.
    cbn [le_value] in Hv. cbn [length] in Hlen.
    assert (b = c /\ le_value l = le_value l2) as [-> Ht] by lia.
    f_equal. apply IH; [exact Hl2 | lia | exact Ht].
Qed.

(** [bytes2param] on byte sequences: the result lies in the range of the
    width and signedness, and two sequences of the same length that decode
    to the same number are equal. *)
Theorem bytes2param_range_injective (l1 l2 : list Z) (is_signed : bool) :
  all_bytes l1 -> all_bytes l2 -> length l1 = length l2 ->
  let m := 256 ^ Z.of_nat (length l1) in
  (if is_signed
   then - (m / 2) <= bytes2param l1 true <= (m - 1) / 2
   else 0 <= bytes2param l1 false < m)
  /\ (bytes2param l1 is_signed = bytes2param l2 is_signed -> l1 = l2).
Proof.
  intros H1 H2 Hlen m.
  pose proof (le_value_bounds l1 H1) as B1.
  pose proof (le_value_bounds l2 H2) as B2.
  rewrite <- Hlen in B2. fold m in B1, B2.
  destruct (pow_256_cases (Z.of_nat (length l1)) ltac:(lia))
    as [Hm | [h [Hh Hm]]]; fold m in Hm.
  - (* no bytes at all *)
    assert (l1 = []) as ->.
    { destruct l1; [reflexivity|]. exfalso. cbn [length] in m.
      unfold m in Hm. rewrite Nat2Z.inj_succ, Z.pow_succ_r in Hm by lia.
      assert (0 < 256 ^ Z.of_nat (length l1))
        by (apply Z.pow_pos_nonneg; lia). lia. }
    assert (l2 = []) as -> by (destruct l2; [reflexivity|discriminate]).
    destruct is_signed; cbn; split; (lia || reflexivity || auto).
  - assert (Hq : m / 2 = h)
      by (symmetry; apply Z.div_unique with (r := 0); lia).
    assert (Hq' : (m - 1) / 2 = h - 1)
      by (symmetry; apply Z.div_unique with (r := 1); lia).
    assert (Hne : (m =? 1) = false) by (apply Z.eqb_neq; lia).
    unfold bytes2param, from_bytes_little. rewrite <- Hlen. fold m.
    rewrite Hq, Hq', Hne. cbn [negb andb].
    destruct is_signed; cbn [andb].
    + rewrite !andb_true_r.
      destruct (h <=? le_value l1) eqn:E1, (h <=? le_value l2) eqn:E2;
        try apply Z.leb_le in E1; try apply Z.leb_gt in E1;
        try apply Z.leb_le in E2; try apply Z.leb_gt in E2;
        (split; [lia|]); intros Hv;
        apply le_value_injective; auto; lia.
    + split; [lia|]. intros Hv. apply le_value_injective; auto.
Qed.

(** ** Unit conversion at integer degrees *)

Lemma degree2offset_truncates_to_30 : degree2offset_truncates_below 61 = true.
Proof. vm_compute. reflexivity. Qed.

Lemma degree2offset_integer (d : Z) :
  -30 <= d <= 30 ->
  degree2offset (float_of_Z d) = Ok (Z.quot (d * 125) 30).
Proof.
  intros Hd.
  pose proof degree2offset_truncates_to_30 as H.
  unfold degree2offset_truncates_below in H.
  rewrite forallb_forall in H.
  specialize (H (Z.to_nat (d + 30))).
  assert (Hin : In (Z.to_nat (d + 30)) (seq 0 61)) by (apply in_seq; lia).
  specialize (H Hin). cbv zeta in H.
  replace (Z.of_nat (Z.to_nat (d + 30)) - 30) with d in H by lia.
  destruct (degree2offset (float_of_Z d)) as [z| |]; simpl in H;
    try discriminate.
  apply Z.eqb_eq in H. now subst.
Qed.

(** At an integer degree [d] in -30..30, [degree2offset] is [d * 125 / 30]
    truncated toward zero, lies in -125..125, and changes sign with [d]. *)
Theorem degree2offset_at_integers (d : Z) :
  -30 <= d <= 30 ->
  exists offset : Z,
    degree2offset (float_of_Z d) = Ok offset
    /\ offset = Z.quot (d * 125) 30
    /\ -125 <= offset <= 125
    /\ degree2offset (float_of_Z (- d)) = Ok (- offset).
Proof.
  intros Hd. exists (Z.quot (d * 125) 30).
  split; [apply degree2offset_integer, Hd|]. split; [reflexivity|]. split.
  - pose proof (Z.quot_le_mono (d * 125) (30 * 125) 30 ltac:(lia) ltac:(lia)).
    pose proof (Z.quot_le_mono (-30 * 125) (d * 125) 30 ltac:(lia) ltac:(lia)).
    change (Z.quot (30 * 125) 30) with 125 in *.
    change (Z.quot (-30 * 125) 30) with (-125) in *. lia.
  - rewrite degree2offset_integer by lia. f_equal.
    replace (- d * 125) with (- (d * 125)) by lia.
    apply Z.quot_opp_l. lia.
Qed.

(** Over the integer degrees 0..240, [degree2cmd] is monotone and stays in
    0..1000. *)
Theorem degree2cmd_at_integers (d1 d2 : Z) :
  0 <= d1 <= d2 -> d2 <= 240 ->
  exists p1 p2 : Z,
    degree2cmd (float_of_Z d1) = Ok p1
    /\ degree2cmd (float_of_Z d2) = Ok p2
    /\ 0 <= p1 <= p2 /\ p2 <= 1000.
Proof.
  intros H1 H2. exists (d1 * 1000 / 240), (d2 * 1000 / 240).
  split; [apply degree2cmd_integer; lia|].
  split; [apply degree2cmd_integer; lia|].
  pose proof (Z.div_le_mono (d1 * 1000) (d2 * 1000) 240 ltac:(lia) ltac:(lia)).
  pose proof (Z.div_le_mono (d2 * 1000) (240 * 1000) 240 ltac:(lia) ltac:(lia)).
  pose proof (Z.div_pos (d1 * 1000) 240 ltac:(lia) ltac:(lia)).
  change (240 * 1000 / 240) with 1000 in *. lia.
Qed.

Lemma set_move_time_in_range (position time : Z) (is_wait : bool)
  (servo_id : ServoObject) (s : Serial) (n : nat) (out warns : list string)
  (gid : option Z) :
  0 <= position <= 1000 -> 0 <= time <= 30000 ->
  set_move_time position time is_wait servo_id
    (mkWorld (Some s) n out warns gid)
  = (Raise (TypeError "to_bytes() takes at most 2 positional arguments"),
     mkWorld (Some s) n out warns gid).
Proof.
  intros Hp Ht. unfold set_move_time, set_move_time_with.
  run_with check_handle_connected.
  assert (Ep : (position <? 0) || (position >? 1000) = false).
  { apply orb_false_iff. rewrite Z.gtb_ltb, !Z.ltb_ge. lia. }
  assert (Et : (time <? 0) || (time >? 30000) = false).
  { apply orb_false_iff. rewrite Z.gtb_ltb, !Z.ltb_ge. lia. }
  rewrite Ep, Et.
  erewrite bind_ok by reflexivity. erewrite bind_ok by reflexivity.
  destruct is_wait; reflexivity.
Qed.

(** For an integer degree in 0..240 and a time in 0..30000, the position
    [degree2cmd] gives passes the range checks of [set_move_time], which
    then raises the [TypeError] of [param2bytes] with nothing written. *)
Theorem move_to_degree_raises (d time : Z) (is_wait : bool)
  (servo_id : ServoObject) (s : Serial) (n : nat) (out warns : list string)
  (gid : option Z) :
  0 <= d <= 240 -> 0 <= time <= 30000 ->
  exists position : Z,
    degree2cmd (float_of_Z d) = Ok position
    /\ set_move_time position time is_wait servo_id
         (mkWorld (Some s) n out warns gid)
       = (Raise (TypeError "to_bytes() takes at most 2 positional arguments"),
          mkWorld (Some s) n out warns gid).
Proof.
  intros Hd Ht. exists (d * 1000 / 240).
  split; [apply degree2cmd_integer, Hd|].
  apply set_move_time_in_range; [|exact Ht].
  pose proof (Z.div_le_mono (d * 1000) (240 * 1000) 240 ltac:(lia) ltac:(lia)).
  pose proof (Z.div_pos (d * 1000) 240 ltac:(lia) ltac:(lia)).
  change (240 * 1000 / 240) with 1000 in *. lia.
Qed.

(** [read_response] on bytes laid out as a frame tests, in this order, the
    destination (unless the broadcast identifier is expected), the command
    (when one is expected), the checksum, and whether the opcode is a
    [Command].  A destination mismatch is raised with only the four header
    bytes consumed; otherwise the whole frame is consumed. *)
Theorem read_response_checks_in_order (servo_id : Z)
  (command : option Command) (d op c : Z) (payload rest : list Z)
  (r : Serial) (n : nat) (out warns : list string) (gid : option Z) :
  let body := d :: (Z.of_nat (length payload) + 3) :: op :: payload in
  let world_with := fun buf =>
    mkWorld (Some (set_in_buffer r buf)) n out warns gid in
  read_response servo_id command
    (world_with ([0x55; 0x55] ++ body ++ [c] ++ rest))
  = if negb (servo_id =? SERVO_BRODCAST) && negb (d =? servo_id)
    then (Raise (RuntimeError "Invalid response servo ID"),
          world_with (op :: payload ++ [c] ++ rest))
    else if match command with
            | Some cmd => negb (op =? Command_value cmd)
            | None => false
            end
    then (Raise (RuntimeError "Invalid response command"), world_with rest)
    else if negb (c =? checksum body)
    then (Raise (RuntimeError "Invalid response checksum"), world_with rest)
    else (rbind (Command_of_value op) (fun cmd => Ok (cmd, payload)),
          world_with rest).
Proof. apply read_response_decides. Qed.

(** ** The theorems above at concrete inputs *)

Lemma scalar_getters_reply_witness :
  get_pos 1 (replied SERVO_POS_READ [0xF4; 0x01] [0x55])
  = (Ok 500, asked 1 SERVO_POS_READ [0x55]).
Proof.
  apply (scalar_getters_reply get_pos SERVO_POS_READ 1 1 [0xF4; 0x01] [0x55]
           usb_port 1 [] [] None).
  - right. right. right. left. reflexivity.
  - lia.
  - reflexivity.
  - right. reflexivity.
Defined.

Lemma pair_getters_reply_witness :
  get_vin_limit 1 (replied SERVO_VIN_LIMIT_READ [0x94; 0x11; 0xE0; 0x2E] [])
  = (Ok (4500, 12000), asked 1 SERVO_VIN_LIMIT_READ []).
Proof.
  apply (pair_getters_reply get_vin_limit SERVO_VIN_LIMIT_READ 1 1
           0x94 0x11 0xE0 0x2E [] [] usb_port 1 [] [] None).
  - right. left. reflexivity.
  - lia.
  - reflexivity.
  - right. reflexivity.
Defined.

Lemma get_move_time_wait_raises_witness :
  get_move_time 1 true
    (replied SERVO_MOVE_TIME_WAIT_READ [0xF4; 0x01; 0xE8; 0x03] [])
  = (Raise (TypeError "'bytes' object cannot be interpreted as an integer"),
     asked 1 SERVO_MOVE_TIME_WAIT_READ []).
Proof.
  apply (get_move_time_wait_raises 1 1 [0xF4; 0x01; 0xE8; 0x03] [] usb_port
           1 [] [] None); [lia | reflexivity | right; reflexivity].
Defined.

Lemma get_angle_offset_reads_id_witness :
  get_angle_offset 1 (replied SERVO_ID_READ [1] [])
  = (Ok 1, asked 1 SERVO_ID_READ [])
  /\ get_angle_offset 1 (replied SERVO_ANGLE_OFFSET_READ [0x83] [])
     = (Raise (RuntimeError "Invalid response command"),
        asked 1 SERVO_ID_READ []).
Proof.
  split.
  - exact (proj1 (proj2 (get_angle_offset_reads_id 1 1 1 [] usb_port 1 [] []
                           None ltac:(lia) eq_refl (or_intror eq_refl)
                           ltac:(lia)))).
  - exact (proj2 (proj2 (get_angle_offset_reads_id 1 1 0x83 [] usb_port 1 []
                           [] None ltac:(lia) eq_refl (or_intror eq_refl)
                           ltac:(lia)))).
Defined.

Lemma get_motor_mode_reply_witness :
  get_motor_mode 1
    (replied SERVO_OR_MOTOR_MODE_READ [1; 0; 0x18; 0xFC] [])
  = (Ok (true, 24), asked 1 SERVO_OR_MOTOR_MODE_READ []).
Proof.
  apply (get_motor_mode_reply 1 1 1 0 0x18 [0xFC] [] usb_port 1 [] [] None);
    [lia | reflexivity | right; reflexivity].
Defined.

Lemma get_led_error_reply_witness :
  get_led_error 1 (replied SERVO_LED_ERROR_READ [led_mask true false true] [])
  = (Ok (true, false, true), asked 1 SERVO_LED_ERROR_READ []).
Proof.
  apply (get_led_error_reply 1 1 (led_mask true false true) [] [] usb_port
           1 [] [] None); [lia | reflexivity | right; reflexivity].
Defined.

Lemma flag_getters_reply_witness :
  get_led 1 (replied SERVO_LED_CTRL_READ [1] [])
  = (Ok true, asked 1 SERVO_LED_CTRL_READ []).
Proof.
  apply (flag_getters_reply get_led SERVO_LED_CTRL_READ 1 1 1 [] [] usb_port
           1 [] [] None).
  - right. left. reflexivity.
  - lia.
  - reflexivity.
  - right. reflexivity.
Defined.

Lemma get_id_reply_witness :
  get_id SERVO_BRODCAST
    (mkWorld (Some (set_in_buffer usb_port (frame 7 SERVO_ID_READ [7])))
             1 [] [] None)
  = (Ok 7, asked SERVO_BRODCAST SERVO_ID_READ []).
Proof.
  apply (get_id_reply SERVO_BRODCAST 7 7 [] [] usb_port 1 [] [] None);
    [unfold SERVO_BRODCAST; lia | reflexivity | left; reflexivity].
Defined.


Lemma getters_empty_payload_witness :
  get_pos 1 (replied SERVO_POS_READ [] []) = (Ok 0, asked 1 SERVO_POS_READ [])
  /\ get_id 1 (replied SERVO_ID_READ [] [])
     = (Raise (IndexError "index out of range"), asked 1 SERVO_ID_READ []).
Proof.
  pose proof (getters_empty_payload 1 1 [] usb_port 1 [] [] None ltac:(lia)
                eq_refl (or_intror eq_refl)) as H.
  split; [exact (proj1 H) | exact (proj1 (proj2 (proj2 H)))].
Defined.

Lemma operations_need_connection_witness :
  get_pos 1 World_init
  = (Raise (RuntimeError "Servo controller is not connected"), World_init)
  /\ start_move SERVO_BRODCAST World_init
     = (Raise (RuntimeError "Servo controller is not connected"), World_init).
Proof.
  pose proof (operations_need_connection World_init 1 SERVO_POS_READ None []
                0 0 false false false false None eq_refl) as H.
  pose proof (operations_need_connection World_init SERVO_BRODCAST
                SERVO_POS_READ None [] 0 0 false false false false None
                eq_refl) as H'.
  split.
  - exact (proj1 (proj2 (proj2 (proj2 (proj2 (proj2 (proj2 (proj2 (proj2
             (proj2 (proj2 (proj2 (proj2 (proj2 (proj2 (proj2 (proj2 (proj2
             (proj2 (proj2 H)))))))))))))))))))).
  - exact (proj1 (proj2 (proj2 (proj2 (proj2 (proj2 H')))))).
Defined.

Lemma send_command_bad_destination_witness :
  send_command 256 SERVO_MOVE_START [] connected_world
  = (Raise (OverflowError "int too big to convert"), connected_world)
  /\ send_command (-1) SERVO_MOVE_START [] connected_world
     = (Raise (OverflowError "can't convert negative int to unsigned"),
        connected_world).
Proof.
  split.
  - apply (send_command_bad_destination 256 SERVO_MOVE_START [] usb_port
             1 [] [] None). right. lia.
  - apply (send_command_bad_destination (-1) SERVO_MOVE_START [] usb_port
             1 [] [] None). left. lia.
Defined.

Lemma send_command_write_fails_witness :
  send_command 1 SERVO_MOVE_START []
    (mkWorld (Some (mkSerial "/dev/ttyUSB0" None None false [] []))
             1 [] [] None)
  = (Raise SerialException,
     mkWorld (Some (mkSerial "/dev/ttyUSB0" None None false [] []))
             1 ["Error"%string] [] None).
Proof.
  apply (send_command_write_fails 1 SERVO_MOVE_START []
           (mkSerial "/dev/ttyUSB0" None None false [] []) 1 [] [] None);
    [lia | simpl; lia | reflexivity].
Defined.

Lemma send_command_buffer_invariants_witness :
  let buffer := [0x55; 0x55; 254; 4; 13; 7; 233] in
  send_command_buffer SERVO_BRODCAST SERVO_ID_WRITE [7] = Ok buffer
  /\ length buffer = 7%nat
  /\ py_sum (skipn 2 buffer) mod 256 = 255.
Proof.
  cbv zeta.
  pose proof (send_command_buffer_invariants SERVO_BRODCAST SERVO_ID_WRITE
                [7] [0x55; 0x55; 254; 4; 13; 7; 233] eq_refl) as H.
  split; [reflexivity|]. split; [exact (proj1 H)|].
  exact (proj1 (proj2 (proj2 (proj2 H)))).
Defined.

Lemma read_response_truncated_header_witness :
  read_response 1 (Some SERVO_POS_READ)
    (mkWorld (Some (set_in_buffer usb_port [0x55; 0x55; 1])) 1 [] [] None)
  = (Raise (IndexError "index out of range"),
     mkWorld (Some (set_in_buffer usb_port [])) 1 [] [] None).
Proof.
  apply (read_response_truncated_header 1 (Some SERVO_POS_READ) [1]
           1%float usb_port 1 [] [] None);
    [reflexivity | right; left; reflexivity].
Defined.

Lemma start_stop_move_frame_witness :
  start_move SERVO_BRODCAST connected_world
  = (Ok tt,
     mkWorld (Some (set_written usb_port [0x55; 0x55; 254; 3; 11; 243]))
             1 [] [] None).
Proof.
  exact (proj1 (start_stop_move_frame SERVO_BRODCAST usb_port 1 [] [] None
                  ltac:(unfold SERVO_BRODCAST; lia) eq_refl)).
Defined.

Lemma set_is_load_set_led_frame_witness :
  set_led true 1 connected_world
  = (Ok tt,
     mkWorld (Some (set_written usb_port [0x55; 0x55; 1; 4; 33; 1; 216]))
             1 [] [] None).
Proof.
  exact (proj2 (set_is_load_set_led_frame true 1 usb_port 1 [] [] None
                  ltac:(lia) eq_refl)).
Defined.

Lemma set_motor_mode_servo_frame_witness :
  set_motor_mode None 1 connected_world
  = (Ok tt,
     mkWorld (Some (set_written usb_port
                      [0x55; 0x55; 1; 7; 29; 0; 0; 0; 0; 218]))
             1 [] [] None).
Proof.
  exact (set_motor_mode_servo_frame 1 usb_port 1 [] [] None ltac:(lia)
           eq_refl).
Defined.

Lemma bytes2param_range_injective_witness :
  -32768 <= bytes2param [0x18; 0xFC] true <= 32767
  /\ (bytes2param [0x18; 0xFC] true = bytes2param [0xE8; 0x03] true ->
      [0x18; 0xFC] = [0xE8; 0x03]).
Proof.
  assert (H1 : all_bytes [0x18; 0xFC])
    by (repeat constructor; lia).
  assert (H2 : all_bytes [0xE8; 0x03])
    by (repeat constructor; lia).
  exact (bytes2param_range_injective [0x18; 0xFC] [0xE8; 0x03] true H1 H2
           eq_refl).
Defined.

Lemma degree2offset_at_integers_witness :
  exists offset : Z,
    degree2offset (float_of_Z (-1)) = Ok offset
    /\ offset = Z.quot (-1 * 125) 30
    /\ -125 <= offset <= 125
    /\ degree2offset (float_of_Z (- -1)) = Ok (- offset).
Proof. apply (degree2offset_at_integers (-1)). lia. Defined.

Lemma degree2cmd_at_integers_witness :
  exists p1 p2 : Z,
    degree2cmd (float_of_Z 4) = Ok p1
    /\ degree2cmd (float_of_Z 90) = Ok p2
    /\ 0 <= p1 <= p2 /\ p2 <= 1000.
Proof. apply (degree2cmd_at_integers 4 90); lia. Defined.

Lemma move_to_degree_raises_witness :
  exists position : Z,
    degree2cmd (float_of_Z 90) = Ok position
    /\ set_move_time position 1000 false SERVO_BRODCAST connected_world
       = (Raise (TypeError "to_bytes() takes at most 2 positional arguments"),
          connected_world).
Proof.
  apply (move_to_degree_raises 90 1000 false SERVO_BRODCAST usb_port 1 [] []
           None); lia.
Defined.
